(** * COLMAP processing API (api.py): job orchestration layer

    A shallow embedding of [src/api/api.py]: the in-memory job registry
    [PROCESSING_JOBS], the submission endpoint [start_processing], the
    background task [run_colmap_script], the query endpoints
    [get_job_status] and [list_jobs], and the two upload endpoints.

    Python state (the registry dict, the filesystem, the scheduled
    background tasks) is threaded through a state-and-exception monad; the
    external pipeline process and the operating system's random source are
    inputs supplied by the environment. *)

From Stdlib Require Import ZArith NArith Ascii String List Bool Lia.
From stdpp Require Import base option list gmap strings fin_maps.

Open Scope string_scope.
Open Scope list_scope.

(** ** Python exceptions

    Values of this type are instances of Python's [Exception] class, the
    class named by the handler [except Exception as e] at api.py:91.
    [BaseException]-only signals (KeyboardInterrupt, SystemExit) are not
    raised by any operation modelled here and are not represented. *)

Inductive Exception : Type :=
  | FileNotFoundError (filename : string)
  | FileExistsError (filename : string)
  | NotADirectoryError (filename : string)
  | IsADirectoryError (filename : string)
  | ShutilError (detail : string)
  | NameError (name : string)
  | HTTPException (status_code : Z) (detail : string)
  | OtherException (class_name : string) (text : string).

(** [repr] of a path; exact for names without quotes, backslashes or
    non-printable characters. *)
Definition py_repr (s : string) : string := "'" +:+ s +:+ "'".

(** [str(e)], the text stored as a failed job's message (api.py:94). *)
Definition str (e : Exception) : string :=
  match e with
  | FileNotFoundError f => "[Errno 2] No such file or directory: " +:+ py_repr f
  | FileExistsError f => "[Errno 17] File exists: " +:+ py_repr f
  | NotADirectoryError f => "[Errno 20] Not a directory: " +:+ py_repr f
  | IsADirectoryError f => "[Errno 21] Is a directory: " +:+ py_repr f
  | ShutilError d => d
  | NameError n => "name " +:+ py_repr n +:+ " is not defined"
  | HTTPException c d => d
  | OtherException _ t => t
  end.

Inductive Result (A : Type) : Type :=
  | Ok (a : A)
  | Raise (e : Exception).
Arguments Ok {A} a.
Arguments Raise {A} e.

(** ** Strings and POSIX paths *)

(** [s.startswith(p)] *)
Fixpoint startswith (p s : string) : bool :=
  match p with
  | EmptyString => true
  | String a p' =>
      match s with
      | EmptyString => false
      | String b s' => Ascii.eqb a b && startswith p' s'
      end
  end.

(** [s.endswith("/")] *)
Fixpoint endswith_slash (s : string) : bool :=
  match s with
  | EmptyString => false
  | String a EmptyString => Ascii.eqb a "/"
  | String _ s' => endswith_slash s'
  end.

(** [os.path.join(a, b)] of posixpath for two components: an absolute
    second component replaces the first; otherwise the components are
    joined with exactly one separator. *)
Definition os_path_join (a b : string) : string :=
  if startswith "/" b then b
  else if String.eqb a "" || endswith_slash a then a +:+ b
  else a +:+ "/" +:+ b.

Definition has_slash (s : string) : bool :=
  existsb (Ascii.eqb "/") (list_ascii_of_string s).

(** [os.path.basename(p)]: the text after the last separator. *)
Fixpoint os_path_basename (p : string) : string :=
  match p with
  | EmptyString => EmptyString
  | String a p' =>
      if has_slash p' then os_path_basename p'
      else if Ascii.eqb a "/" then p'
      else p
  end.

(** The directory prefixes of a path, outermost first and ending with the
    path itself: for [/a/b/c] these are [/a], [/a/b], [/a/b/c]. [acc] is
    the text already scanned, in order. *)
Fixpoint path_prefixes_from (acc rest : string) : list string :=
  match rest with
  | EmptyString =>
      if String.eqb acc "" || endswith_slash acc then [] else [acc]
  | String a rest' =>
      let emit :=
        if Ascii.eqb a "/" && negb (String.eqb acc "" || endswith_slash acc)
        then [acc] else [] in
      emit ++ path_prefixes_from (acc +:+ String a EmptyString) rest'
  end.

Definition path_prefixes (p : string) : list string :=
  path_prefixes_from "" p.

(** [p] lies strictly below directory [q]. *)
Definition path_under (p q : string) : bool := startswith (q +:+ "/") p.

(** Two paths share a location: they are equal or one lies below the other. *)
Definition paths_overlap (p q : string) : bool :=
  String.eqb p q || path_under p q || path_under q p.

(** Two strings part ways: at some offset both have a character and the
    characters differ. *)
Fixpoint diverge (p q : string) : bool :=
  match p, q with
  | String a p', String b q' => if Ascii.eqb a b then diverge p' q' else true
  | _, _ => false
  end.

(** ** Job identifiers: [str(uuid.uuid4())] *)

Definition hex_digit (n : N) : ascii :=
  match n with
  | 0 => "0" | 1 => "1" | 2 => "2" | 3 => "3" | 4 => "4" | 5 => "5"
  | 6 => "6" | 7 => "7" | 8 => "8" | 9 => "9" | 10 => "a" | 11 => "b"
  | 12 => "c" | 13 => "d" | 14 => "e" | _ => "f"
  end%N%char.

(** ['%0nx' % x] restricted to the low [n] hexadecimal digits. *)
Fixpoint to_hex (n : nat) (x : N) : string :=
  match n with
  | O => EmptyString
  | S k => String (hex_digit (N.land (N.shiftr x (4 * N.of_nat k)) 15)) (to_hex k x)
  end.

(** [uuid.UUID(bytes=os.urandom(16), version=4).int]: the 128 random bits
    with the RFC 4122 variant and the version number 4 forced. *)
Definition uuid4_int (rnd : N) : N :=
  let i := N.land rnd (N.ones 128) in
  let i := N.ldiff i (N.shiftl 0xc000 48) in
  let i := N.lor i (N.shiftl 0x8000 48) in
  let i := N.ldiff i (N.shiftl 0xf000 64) in
  N.lor i (N.shiftl 4 76).

(** [str(UUID)]: 32 hex digits grouped 8-4-4-4-12. *)
Definition uuid_str (i : N) : string :=
  let h := to_hex 32 i in
  substring 0 8 h +:+ "-" +:+ substring 8 4 h +:+ "-" +:+ substring 12 4 h
    +:+ "-" +:+ substring 16 4 h +:+ "-" +:+ substring 20 12 h.

(** api.py:46-47. [rnd] is the value of the 16 bytes read from the
    operating system's random source by [uuid.uuid4()]. *)
Definition generate_job_id (rnd : N) : string := uuid_str (uuid4_int rnd).

Definition is_hex (c : ascii) : bool :=
  existsb (Ascii.eqb c) (list_ascii_of_string "0123456789abcdef").

(** The textual shape of a job identifier: 36 characters, dashes at
    offsets 8, 13, 18 and 23, lowercase hexadecimal digits elsewhere. *)
Fixpoint uuid_shape_from (i : nat) (s : string) : bool :=
  match s with
  | EmptyString => Nat.eqb i 36
  | String c s' =>
      (if existsb (Nat.eqb i) [8; 13; 18; 23]%nat then Ascii.eqb c "-" else is_hex c)
      && uuid_shape_from (S i) s'
  end.

Definition is_uuid (s : string) : bool := uuid_shape_from 0 s.

(** ** Filesystem

    A flat map from path names to nodes. Paths are compared as written:
    they are taken to be in normal form (no doubled or trailing separators,
    no dot segments, no symbolic links). The root directory is not an entry
    of the map; it always exists. Permissions and capacity are not
    modelled. *)

#[warnings="-register-all"]
Inductive json : Type :=
  | JNull
  | JBool (b : bool)
  | JInt (n : Z)
  | JString (s : string)
  | JList (items : list json)
  | JObject (members : list (string * json)).

(** What a file holds: raw text, or the document written by [json.dump]. *)
Inductive content : Type :=
  | Raw (text : string)
  | JsonDoc (doc : list (string * json)).

Inductive node : Type :=
  | File (c : content)
  | Dir.

Abbreviation filesystem := (gmap string node).

Definition os_path_isdir (fs : filesystem) (p : string) : bool :=
  match fs !! p with
  | Some Dir => true
  | _ => false
  end.

Definition os_path_exists (fs : filesystem) (p : string) : bool :=
  match fs !! p with
  | Some _ => true
  | None => false
  end.

(** The loop of [os.makedirs(name, exist_ok=True)] over the prefixes of
    [name]: existing directories are kept, missing ones are created, and a
    regular file on the way stops the call. *)
Fixpoint makedirs_from (fs : filesystem) (prefixes : list string) : Result filesystem :=
  match prefixes with
  | [] => Ok fs
  | p :: rest =>
      match fs !! p with
      | Some Dir => makedirs_from fs rest
      | Some (File _) =>
          match rest with
          | [] => Raise (FileExistsError p)
          | q :: _ => Raise (NotADirectoryError q)
          end
      | None => makedirs_from (<[p := Dir]> fs) rest
      end
  end.

Definition os_makedirs (fs : filesystem) (name : string) : Result filesystem :=
  if String.eqb name "" then Raise (FileNotFoundError name)
  else makedirs_from fs (path_prefixes name).

(** The directory holding [p], when [p] has one below the root. *)
Definition parent_dir (p : string) : option string :=
  match rev (path_prefixes p) with
  | _ :: q :: _ => Some q
  | _ => None
  end.

(** [open(path, "w")]: whether the file can be created or truncated. *)
Definition open_w (fs : filesystem) (path : string) : Result unit :=
  match fs !! path with
  | Some Dir => Raise (IsADirectoryError path)
  | Some (File _) => Ok tt
  | None =>
      match parent_dir path with
      | None => Ok tt
      | Some q =>
          match fs !! q with
          | Some Dir => Ok tt
          | Some (File _) => Raise (NotADirectoryError path)
          | None => Raise (FileNotFoundError path)
          end
      end
  end.

Definition write_file (fs : filesystem) (path : string) (c : content) : Result filesystem :=
  match open_w fs path with
  | Ok _ => Ok (<[path := File c]> fs)
  | Raise e => Raise e
  end.

(** [shutil.copy(src, dst)]: into [dst] when it is a directory, under the
    source's base name. *)
Definition shutil_copy (fs : filesystem) (src dst : string) : Result filesystem :=
  let target :=
    if os_path_isdir fs dst then os_path_join dst (os_path_basename src) else dst in
  match fs !! src with
  | None => Raise (FileNotFoundError src)
  | Some Dir => Raise (IsADirectoryError src)
  | Some (File c) =>
      if String.eqb src target
      then Raise (ShutilError (py_repr src +:+ " and " +:+ py_repr target +:+ " are the same file"))
      else write_file fs target c
  end.

Fixpoint string_drop (n : nat) (s : string) : string :=
  match n, s with
  | O, _ => s
  | S k, String _ s' => string_drop k s'
  | S _, EmptyString => EmptyString
  end.

Definition same_kind (a b : node) : bool :=
  match a, b with
  | Dir, Dir => true
  | File _, File _ => true
  | _, _ => false
  end.

Definition is_file (n : node) : bool :=
  match n with
  | File _ => true
  | Dir => false
  end.

(** [shutil.copytree(src, dst, dirs_exist_ok=True)]: every entry below
    [src] is copied to the same relative place below [dst], from a listing
    taken when the call starts.
    - A destination entry of the other kind makes the call raise
      [shutil.Error]; which entries were copied before that is not
      modelled.
    - A destination two or more levels inside the source makes Python
      descend into its own copies until the operating system refuses the
      path; the call ends with [shutil.Error].
    - A destination that is a direct child of the source is copied like any
      other entry (it is listed first), and the call returns normally.
    - Copying a tree onto itself raises for every regular file in it. *)
Definition shutil_copytree (fs : filesystem) (src dst : string) : Result filesystem :=
  match fs !! src with
  | None => Raise (FileNotFoundError src)
  | Some (File _) => Raise (NotADirectoryError src)
  | Some Dir =>
      if path_under dst src
         && negb (match parent_dir dst with
                  | Some q => String.eqb q src
                  | None => false
                  end)
      then Raise (ShutilError "[Errno 36] File name too long")
      else
        match os_makedirs fs dst with
        | Raise e => Raise e
        | Ok fs1 =>
            let entries := filter (fun kn => path_under kn.1 src = true) (map_to_list fs) in
            let moved :=
              map (fun kn => (dst +:+ string_drop (String.length src) kn.1, kn.2)) entries in
            if String.eqb src dst && existsb (fun kn => is_file kn.2) entries
            then Raise (ShutilError "source and destination are the same file")
            else if forallb (fun kn => match fs1 !! kn.1 with
                                       | Some n => same_kind n kn.2
                                       | None => true
                                       end) moved
            then Ok (list_to_map moved ∪ fs1)
            else Raise (ShutilError "destination entry of another kind")
        end
  end.

(** ** Data model (api.py:23-43) *)

Definition WORKSPACE_BASE : string := "/workspace".
Definition INGEST_DIR : string := os_path_join WORKSPACE_BASE "ingest".
Definition COLMAP_WORKSPACE : string := os_path_join WORKSPACE_BASE "colmap_workspace".
Definition NERFSTUDIO_OUTPUT : string := os_path_join WORKSPACE_BASE "nerfstudio_dataset".

(** [class ProcessingRequest(BaseModel)] *)
Record ProcessingRequest : Type := mkRequest {
  req_input_path : string;
  req_config : option (list (string * json));
  req_mode : string;
  req_gpu : string;
  req_render_pipeline : string;
  req_scale : string
}.

(** [class JobStatus(BaseModel)], the response model of the endpoints. *)
Record JobStatus : Type := mkJobStatus {
  js_job_id : string;
  js_status : string;
  js_message : option string;
  js_output_path : option string
}.

(** A value of [PROCESSING_JOBS]: the dict with the keys [status],
    [message] and [output_path]. *)
Record JobRecord : Type := mkJobRecord {
  status : string;
  message : string;
  output_path : option string
}.

(** The [params] dict handed to the background task (api.py:152-160). *)
Record JobParams : Type := mkJobParams {
  job_id : string;
  input_path : string;
  config : option (list (string * json));
  mode : string;
  gpu : string;
  render_pipeline : string;
  scale : string
}.

(** The value returned by [subprocess.run(..., capture_output=True, text=True)]. *)
Record CompletedProcess : Type := mkCompletedProcess {
  returncode : Z;
  stdout : string;
  stderr : string
}.

(** An uploaded file: its client-side name and its bytes. *)
Record UploadFile : Type := mkUploadFile {
  filename : string;
  file_bytes : string
}.

(** The external pipeline as the environment provides it: for an argument
    vector and the filesystem at launch, either a completed process or the
    exception raised by [subprocess.run], and the filesystem it leaves. *)
Definition Subprocess : Type :=
  list string → filesystem → Result CompletedProcess * filesystem.

(** What the program did to the outside world, in order. *)
Inductive Event : Type :=
  | FileWritten (path : string)
  | SubprocessRun (cmd : list string).

Record World : Type := mkWorld {
  PROCESSING_JOBS : gmap string JobRecord;
  fs : gmap string node;
  background_tasks : list JobParams;
  trace : list Event
}.

Definition set_jobs (j : gmap string JobRecord) (w : World) : World :=
  mkWorld j (fs w) (background_tasks w) (trace w).
Definition set_fs (f : gmap string node) (w : World) : World :=
  mkWorld (PROCESSING_JOBS w) f (background_tasks w) (trace w).
Definition set_background (b : list JobParams) (w : World) : World :=
  mkWorld (PROCESSING_JOBS w) (fs w) b (trace w).
Definition log_event (e : Event) (w : World) : World :=
  mkWorld (PROCESSING_JOBS w) (fs w) (background_tasks w) (trace w ++ [e]).

(** ** The state-and-exception monad of request handlers and tasks *)

Definition M (A : Type) : Type := World → Result A * World.

#[export] Instance M_ret : MRet M := fun A a w => (Ok a, w).
#[export] Instance M_bind : MBind M := fun A B f m w =>
  match m w with
  | (Ok a, w') => f a w'
  | (Raise e, w') => (Raise e, w')
  end.

Definition raise {A : Type} (e : Exception) : M A := fun w => (Raise e, w).

(** [try: body  except Exception as e: handler(e)] *)
Definition try_except {A : Type} (body : M A) (handler : Exception → M A) : M A :=
  fun w =>
    match body w with
    | (Ok a, w') => (Ok a, w')
    | (Raise e, w') => handler e w'
    end.

(** A filesystem operation run against the world's filesystem. *)
Definition fs_op (op : filesystem → Result filesystem) : M unit :=
  fun w =>
    match op (fs w) with
    | Ok fs' => (Ok tt, set_fs fs' w)
    | Raise e => (Raise e, w)
    end.

(** [os.path.isdir(path)] *)
Definition isdir (path : string) : M bool :=
  fun w => (Ok (os_path_isdir (fs w) path), w).

(** [with open(path, "w") as f: json.dump(doc, f)] *)
Definition json_dump_to (path : string) (doc : list (string * json)) : M unit :=
  fun w =>
    match write_file (fs w) path (JsonDoc doc) with
    | Ok fs' => (Ok tt, log_event (FileWritten path) (set_fs fs' w))
    | Raise e => (Raise e, w)
    end.

(** [async with aiofiles.open(path, 'wb') as f: await f.write(data)] *)
Definition write_bytes_to (path : string) (data : string) : M unit :=
  fun w =>
    match write_file (fs w) path (Raw data) with
    | Ok fs' => (Ok tt, log_event (FileWritten path) (set_fs fs' w))
    | Raise e => (Raise e, w)
    end.

(** [subprocess.run(cmd, capture_output=True, text=True)] *)
Definition subprocess_run (proc : Subprocess) (cmd : list string) : M CompletedProcess :=
  fun w =>
    let '(r, fs') := proc cmd (fs w) in
    (r, log_event (SubprocessRun cmd) (set_fs fs' w)).

(** [PROCESSING_JOBS[key] = value] *)
Definition jobs_setitem (key : string) (value : JobRecord) : M unit :=
  fun w => (Ok tt, set_jobs (<[key := value]> (PROCESSING_JOBS w)) w).

(** [PROCESSING_JOBS[key]] *)
Definition jobs_getitem (key : string) : M JobRecord :=
  fun w =>
    match PROCESSING_JOBS w !! key with
    | Some r => (Ok r, w)
    | None => (Raise (OtherException "KeyError" (py_repr key)), w)
    end.

(** [key in PROCESSING_JOBS] *)
Definition jobs_contains (key : string) : M bool :=
  fun w => (Ok (bool_decide (is_Some (PROCESSING_JOBS w !! key))), w).

(** [background_tasks.add_task(run_colmap_script, params)] *)
Definition add_task (params : JobParams) : M unit :=
  fun w => (Ok tt, set_background (background_tasks w ++ [params]) w).

(** ** Helper functions (api.py:45-96) *)

(** Truth value of [params.get("config")]: [None] and the empty dict are
    false. *)
Definition config_truthy (c : option (list (string * json))) : bool :=
  match c with
  | Some (_ :: _) => true
  | _ => false
  end.

(** The name of the per-job configuration file (api.py:55). *)
Definition config_path_of (id : string) : string :=
  os_path_join COLMAP_WORKSPACE ("config_" +:+ id +:+ ".json").

(** The argument vector before the optional config flag (api.py:61-70). *)
Definition base_cmd (params : JobParams) : list string :=
  [ "/workspace/colmap.sh";
    if String.eqb (mode params) "batch" then "--batch" else "--daemon";
    "--ingest-dir"; input_path params;
    "--colmap-workspace"; os_path_join COLMAP_WORKSPACE (job_id params);
    "--nerfstudio-output"; os_path_join NERFSTUDIO_OUTPUT (job_id params);
    "--gpu"; gpu params;
    "--render-pipeline"; render_pipeline params;
    "--scale"; scale params ].

(** The argument vector handed to [subprocess.run] (api.py:61-73); the
    test [if config_file:] is false for [None] and for the empty string. *)
Definition build_cmd (params : JobParams) (config_file : option string) : list string :=
  base_cmd params ++
  match config_file with
  | Some f => if String.eqb f "" then [] else ["--config"; f]
  | None => []
  end.

Definition completed_record (id : string) : JobRecord :=
  {| status := "completed";
     message := "Processing completed successfully";
     output_path := Some (os_path_join NERFSTUDIO_OUTPUT id) |}.

Definition failed_record (text : string) : JobRecord :=
  {| status := "failed"; message := text; output_path := None |}.

Definition queued_record : JobRecord :=
  {| status := "queued"; message := "Job is queued for processing"; output_path := None |}.

(** api.py:52-58: the optional per-job configuration file. Returns the
    value of [config_file]. *)
Definition write_config (params : JobParams) : M (option string) :=
  if config_truthy (config params) then
    let config_path := config_path_of (job_id params) in
    json_dump_to config_path (default [] (config params)) ;;
    mret (Some config_path)
  else mret None.

(** api.py:49-96. [proc] is the behaviour of the external pipeline during
    this execution. *)
Definition run_colmap_script (proc : Subprocess) (params : JobParams) : M unit :=
  try_except
    (config_file ← write_config params;
     let cmd := build_cmd params config_file in
     result ← subprocess_run proc cmd;
     if Z.eqb (returncode result) 0
     then jobs_setitem (job_id params) (completed_record (job_id params))
     else jobs_setitem (job_id params) (failed_record (stderr result)))
    (fun e => jobs_setitem (job_id params) (failed_record (str e))).

(** ** Module namespace

    The names bound at module level of api.py when a handler runs: the
    imports of lines 2-11, the assignments, the two model classes and the
    functions. *)
Definition module_globals : list string :=
  [ "FastAPI"; "HTTPException"; "BackgroundTasks"; "CORSMiddleware"; "BaseModel";
    "subprocess"; "os"; "shutil"; "uuid"; "Optional"; "logging"; "json";
    "app"; "WORKSPACE_BASE"; "INGEST_DIR"; "COLMAP_WORKSPACE"; "NERFSTUDIO_OUTPUT";
    "PROCESSING_JOBS"; "ProcessingRequest"; "JobStatus";
    "generate_job_id"; "run_colmap_script"; "upload_files"; "process_uploaded_files";
    "start_processing"; "get_job_status"; "list_jobs" ].

(** Evaluating a global name: unbound names raise [NameError]. *)
Definition name_ref (n : string) : M unit :=
  if existsb (String.eqb n) module_globals then mret tt else raise (NameError n).

(** ** API endpoints (api.py:98-194) *)

(** The loop that saves the uploaded files (api.py:107-110, 130-133). *)
Fixpoint save_files (upload_dir : string) (files : list UploadFile) : M unit :=
  match files with
  | [] => mret tt
  | file :: rest =>
      let file_path := os_path_join upload_dir (filename file) in
      name_ref "aiofiles" ;;
      write_bytes_to file_path (file_bytes file) ;;
      save_files upload_dir rest
  end.

(** api.py:100-112. The first line is the evaluation of the parameter
    default [File(...)] and of the annotation [list[UploadFile]], which
    Python performs when it executes the [def] statement, before any body
    can run. *)
Definition upload_files (rnd : N) (files : list UploadFile) : M (string * string) :=
  name_ref "File" ;; name_ref "UploadFile" ;;
  let job_id := generate_job_id rnd in
  let upload_dir := os_path_join INGEST_DIR job_id in
  fs_op (fun fs => os_makedirs fs upload_dir) ;;
  save_files upload_dir files ;;
  mret (job_id, "Files uploaded successfully").

(** The body of [process_uploaded_files] (api.py:125-133): it ends after
    the loop, so the handler returns [None]. *)
Definition process_uploaded_files_body (rnd : N) (files : list UploadFile)
    : M (option JobStatus) :=
  let job_id := generate_job_id rnd in
  let upload_dir := os_path_join INGEST_DIR job_id in
  fs_op (fun fs => os_makedirs fs upload_dir) ;;
  save_files upload_dir files ;;
  mret None.

(** api.py:114-133. The defaults [File(...)] and [Form(...)] and the
    annotation [list[UploadFile]] are evaluated first, as for
    [upload_files]; the form fields are not used by the body. *)
Definition process_uploaded_files (rnd : N) (files : list UploadFile)
    (config mode gpu render_pipeline scale : option string) : M (option JobStatus) :=
  name_ref "File" ;; name_ref "Form" ;; name_ref "UploadFile" ;;
  process_uploaded_files_body rnd files.

(** api.py:141-149: the job's input directory is created, then the input
    is copied into it. *)
Definition stage_input (input_dir : string) (request : ProcessingRequest) : M unit :=
  fs_op (fun fs => os_makedirs fs input_dir) ;;
  isdir (req_input_path request) ≫= fun is_dir : bool =>
  if is_dir
  then fs_op (fun fs => shutil_copytree fs (req_input_path request) input_dir)
  else fs_op (fun fs => shutil_copy fs (req_input_path request) input_dir).

(** api.py:152-160 *)
Definition job_params_of (job_id input_dir : string) (request : ProcessingRequest)
    : JobParams :=
  {| job_id := job_id;
     input_path := input_dir;
     config := req_config request;
     mode := req_mode request;
     gpu := req_gpu request;
     render_pipeline := req_render_pipeline request;
     scale := req_scale request |}.

(** api.py:136-176 *)
Definition start_processing (rnd : N) (request : ProcessingRequest) : M JobStatus :=
  let job_id := generate_job_id rnd in
  let input_dir := os_path_join INGEST_DIR job_id in
  stage_input input_dir request ;;
  let job_params := job_params_of job_id input_dir request in
  jobs_setitem job_id queued_record ;;
  add_task job_params ;;
  r_status ← jobs_getitem job_id;
  r_message ← jobs_getitem job_id;
  mret {| js_job_id := job_id;
          js_status := status r_status;
          js_message := Some (message r_message);
          js_output_path := None |}.

(** api.py:178-189 *)
Definition get_job_status (job_id : string) : M JobStatus :=
  present ← jobs_contains job_id;
  if negb present then raise (HTTPException 404 "Job not found")
  else
    r_status ← jobs_getitem job_id;
    r_message ← jobs_getitem job_id;
    r_output ← jobs_getitem job_id;
    mret {| js_job_id := job_id;
            js_status := status r_status;
            js_message := Some (message r_message);
            js_output_path := output_path r_output |}.

(** api.py:191-194 *)
Definition list_jobs : M (gmap string JobRecord) :=
  fun w => (Ok (PROCESSING_JOBS w), w).

(** ** The running service

    One step is a request served to completion, the execution of one
    scheduled background task, or a change made to the filesystem by
    anything else on the machine. Scheduled tasks may run in any order.
    A task writes the registry once, with a single dict assignment at its
    end, and its pipeline is an arbitrary function of the environment, so
    running it as one step loses no behaviour of the registry. Every choice
    of the environment is carried by the step's label, so a run is a
    function of its labels. *)

Inductive Step : Type :=
  | Submit (rnd : N) (request : ProcessingRequest)
  | Query (job_id : string)
  | Listing
  | UploadOnly (rnd : N) (files : list UploadFile)
  | UploadAndProcess (rnd : N) (files : list UploadFile)
      (config mode gpu render_pipeline scale : option string)
  | Execute (i : nat) (proc : Subprocess)
  | Outside (fs' : gmap string node).

Definition step (s : Step) (w : World) : World :=
  match s with
  | Submit rnd request => (start_processing rnd request w).2
  | Query id => (get_job_status id w).2
  | Listing => (list_jobs w).2
  | UploadOnly rnd files => (upload_files rnd files w).2
  | UploadAndProcess rnd files c m g r sc =>
      (process_uploaded_files rnd files c m g r sc w).2
  | Execute i proc =>
      match background_tasks w !! i with
      | Some params =>
          (run_colmap_script proc params (set_background (delete i (background_tasks w)) w)).2
      | None => w
      end
  | Outside fs' => set_fs fs' w
  end.

Definition run (w : World) (steps : list Step) : World :=
  fold_left (fun w s => step s w) steps w.

(** The service at start-up: an empty registry and nothing scheduled. *)
Definition initial_world (fs0 : gmap string node) : World :=
  mkWorld ∅ fs0 [] [].


(** The identifiers drawn by the submissions of a run. *)
Definition submitted_ids (steps : list Step) : list string :=
  flat_map (fun s => match s with
                     | Submit rnd _ => [generate_job_id rnd]
                     | _ => []
                     end) steps.

Definition is_terminal (s : string) : bool :=
  String.eqb s "completed" || String.eqb s "failed".

(** The paths derived from a job identifier: input staging directory,
    pipeline workspace directory, output directory, configuration file. *)
Definition job_paths (id : string) : list string :=
  [ os_path_join INGEST_DIR id;
    os_path_join COLMAP_WORKSPACE id;
    os_path_join NERFSTUDIO_OUTPUT id;
    config_path_of id ].

(** ** Invariants of the running service *)

(** Every stored record is one of the three the code writes. *)
Definition jobs_shape (w : World) : Prop :=
  ∀ id r, PROCESSING_JOBS w !! id = Some r →
    r = queued_record ∨ r = completed_record id ∨ ∃ text, r = failed_record text.


(** Identifiers in the registry or in the schedule were drawn by a
    submission among [ids]. *)
Definition known_ids (ids : list string) (w : World) : Prop :=
  (∀ id, is_Some (PROCESSING_JOBS w !! id) → id ∈ ids)
  ∧ ∀ p, p ∈ background_tasks w → job_id p ∈ ids.

(** ** Scenario fixtures

    A small deployment used to run the service on concrete inputs: the
    pipeline script and its workspace root exist, and [/data] holds one
    capture. *)

Definition example_fs : gmap string node :=
  list_to_map
    [ ("/workspace", Dir);
      ("/workspace/colmap.sh", File (Raw "#!/bin/sh"));
      ("/workspace/colmap_workspace", Dir);
      ("/data", Dir);
      ("/data/img.png", File (Raw "PNG")) ].

(** The same machine before any directory below [/workspace] exists. *)
Definition fresh_fs : gmap string node :=
  list_to_map
    [ ("/workspace", Dir);
      ("/workspace/colmap.sh", File (Raw "#!/bin/sh")) ].

Definition example_request : ProcessingRequest :=
  {| req_input_path := "/data";
     req_config := Some [("max_features", JInt 8192)];
     req_mode := "batch";
     req_gpu := "auto";
     req_render_pipeline := "default";
     req_scale := "default" |}.

Definition plain_request : ProcessingRequest :=
  {| req_input_path := "/data/img.png";
     req_config := None;
     req_mode := "daemon";
     req_gpu := "false";
     req_render_pipeline := "fast";
     req_scale := "large" |}.

(** A request whose input path names the ingest root itself. *)
Definition ingest_root_request : ProcessingRequest :=
  {| req_input_path := "/workspace/ingest";
     req_config := None;
     req_mode := "batch";
     req_gpu := "auto";
     req_render_pipeline := "default";
     req_scale := "default" |}.

(** A pipeline stub that exits with status 0. *)
Definition pipeline_ok : Subprocess :=
  fun _ fs => (Ok {| returncode := 0; stdout := "done"; stderr := "" |}, fs).

(** A pipeline stub that exits with status 1. *)
Definition pipeline_fails : Subprocess :=
  fun _ fs => (Ok {| returncode := 1; stdout := ""; stderr := "no images found" |}, fs).

Definition example_id : string := generate_job_id 1.

(** The service after one job was submitted and ran to completion. *)
Definition completed_world : World :=
  run (initial_world example_fs) [Submit 1 example_request; Execute 0 pipeline_ok].

(** ** Further notions used by the properties *)

(** The bits of the random draw that [uuid.uuid4()] keeps: the low 128 bits
    without the two variant bits (62, 63) and the four version bits
    (76 to 79). *)
Definition uuid_random_mask : N :=
  N.ldiff (N.ones 128) (N.lor (N.shiftl 0xc000 48) (N.shiftl 0xf000 64)).

(** The bits it forces: variant 10 and version 4. *)
Definition uuid_fixed_bits : N := N.lor (N.shiftl 0x8000 48) (N.shiftl 4 76).

(** The number of [subprocess.run] calls in a trace. *)
Fixpoint launches (t : list Event) : nat :=
  match t with
  | [] => 0
  | SubprocessRun _ :: t' => S (launches t')
  | FileWritten _ :: t' => launches t'
  end.

(** The identifiers of the submissions of a run that returned normally. *)
Fixpoint accepted_ids (w : World) (steps : list Step) : list string :=
  match steps with
  | [] => []
  | s :: rest =>
      match s with
      | Submit rnd request =>
          match (start_processing rnd request w).1 with
          | Ok _ => [generate_job_id rnd]
          | Raise _ => []
          end
      | _ => []
      end ++ accepted_ids (step s w) rest
  end.

(** Every scheduled task belongs to a registered job. *)
Definition pending_registered (w : World) : Prop :=
  ∀ p, p ∈ background_tasks w → is_Some (PROCESSING_JOBS w !! job_id p).

(** Every job whose record is the queued one has a scheduled task. *)
Definition queued_pending (w : World) : Prop :=
  ∀ id r, PROCESSING_JOBS w !! id = Some r → status r = "queued" →
    ∃ p, p ∈ background_tasks w ∧ job_id p = id.



(** * Properties *)

(** ** Strings, paths and identifiers *)

Lemma length_app_string (s t : string) :
  String.length (s +:+ t) = (String.length s + String.length t)%nat.
Proof. induction s as [|c s IH]; simpl; [done | by rewrite IH]. Qed.

Lemma startswith_length (p s : string) :
  startswith p s = true → (String.length p ≤ String.length s)%nat.
Proof.
  revert s. induction p as [|a p IH]; intros s H; simpl in *; [lia |].
  destruct s as [|b s]; [done |].
  apply andb_true_iff in H as [_ H]. apply IH in H. simpl. lia.
Qed.

Lemma has_slash_app (s t : string) :
  has_slash (s +:+ t) = has_slash s || has_slash t.
Proof.
  unfold has_slash. induction s as [|c s IH]; simpl; [done |].
  by rewrite IH, orb_assoc.
Qed.

Lemma startswith_has_slash (p s : string) :
  startswith p s = true → has_slash p = true → has_slash s = true.
Proof.
  revert s. unfold has_slash. induction p as [|a p IH]; intros s H Hp; simpl in *; [done |].
  destruct s as [|b s]; [done |]. simpl.
  apply andb_true_iff in H as [Hab H].
  apply Ascii.eqb_eq in Hab as <-.
  apply orb_true_iff in Hp as [Hp | Hp]; [by rewrite Hp |].
  rewrite (IH s H Hp). apply orb_true_r.
Qed.

Lemma is_hex_hex_digit (n : N) : is_hex (hex_digit n) = true.
Proof.
  destruct n as [|p]; [done |].
  do 4 (try destruct p as [p|p|]); done.
Qed.

Lemma is_hex_not_slash (c : ascii) : is_hex c = true → Ascii.eqb "/" c = false.
Proof.
  intros H. destruct (Ascii.eqb_spec "/" c) as [<- | ]; [done | done].
Qed.

Lemma uuid_shape_length (i : nat) (s : string) :
  uuid_shape_from i s = true → (i + String.length s = 36)%nat.
Proof.
  revert i. induction s as [|c s IH]; intros i H; simpl in *.
  - apply Nat.eqb_eq in H. lia.
  - apply andb_true_iff in H as [_ H]. apply IH in H. lia.
Qed.

Lemma uuid_shape_no_slash (i : nat) (s : string) :
  uuid_shape_from i s = true → has_slash s = false.
Proof.
  revert i. unfold has_slash. induction s as [|c s IH]; intros i H; simpl in *; [done |].
  apply andb_true_iff in H as [Hc H]. rewrite (IH _ H), orb_false_r.
  match type of Hc with (if ?b then _ else _) = _ => destruct b end.
  - apply Ascii.eqb_eq in Hc as ->. done.
  - by apply is_hex_not_slash.
Qed.

Lemma is_uuid_length (s : string) : is_uuid s = true → String.length s = 36%nat.
Proof. intros H. by apply uuid_shape_length in H. Qed.

Lemma is_uuid_no_slash (s : string) : is_uuid s = true → has_slash s = false.
Proof. apply uuid_shape_no_slash. Qed.

Lemma is_uuid_relative (s : string) : is_uuid s = true → startswith "/" s = false.
Proof.
  intros H. destruct s as [|c s]; [done |]. simpl.
  apply is_uuid_no_slash in H. unfold has_slash in H. simpl in H.
  apply orb_false_iff in H as [-> _]. done.
Qed.

(** Every identifier returned by [generate_job_id] has the UUID shape. *)
Lemma generate_job_id_is_uuid (rnd : N) : is_uuid (generate_job_id rnd) = true.
Proof.
  unfold generate_job_id, uuid_str. generalize (uuid4_int rnd). intros x.
  cbn [to_hex].
  repeat match goal with
         | |- context [hex_digit ?a] =>
             generalize (is_hex_hex_digit a); generalize (hex_digit a); intros ? ?
         end.
  cbv -[is_hex].
  repeat match goal with H : is_hex _ = true |- _ => rewrite H; clear H end.
  reflexivity.
Qed.

Lemma string_app_assoc (s t u : string) : (s +:+ t) +:+ u = s +:+ (t +:+ u).
Proof. induction s as [|c s IH]; [done |]. change (String c ((s +:+ t) +:+ u) = String c (s +:+ t +:+ u)). by rewrite IH. Qed.

Lemma string_app_inv_tail (s t u : string) : s +:+ u = t +:+ u → s = t.
Proof.
  revert t. induction s as [|c s IH]; intros [|d t] H.
  - done.
  - apply (f_equal String.length) in H. rewrite !length_app_string in H. simpl in H. lia.
  - apply (f_equal String.length) in H. rewrite !length_app_string in H. simpl in H. lia.
  - change (String c (s +:+ u) = String d (t +:+ u)) in H.
    injection H as -> H. f_equal. by apply IH.
Qed.

Lemma eqb_app_l (r s t : string) : String.eqb (r +:+ s) (r +:+ t) = String.eqb s t.
Proof.
  induction r as [|c r IH]; [done |].
  change (String.eqb (String c (r +:+ s)) (String c (r +:+ t)) = String.eqb s t).
  simpl. by rewrite Ascii.eqb_refl, IH.
Qed.

Lemma startswith_app_l (r s t : string) :
  startswith (r +:+ s) (r +:+ t) = startswith s t.
Proof.
  induction r as [|c r IH]; [done |].
  change (startswith (String c (r +:+ s)) (String c (r +:+ t)) = startswith s t).
  simpl. by rewrite Ascii.eqb_refl, IH.
Qed.

Lemma diverge_sym (p q : string) : diverge p q = diverge q p.
Proof.
  revert q. induction p as [|a p IH]; intros [|b q]; simpl; try done.
  rewrite (Ascii.eqb_sym a b). destruct (Ascii.eqb b a); [apply IH | done].
Qed.

Lemma diverge_eqb (p q s t : string) :
  diverge p q = true → String.eqb (p +:+ s) (q +:+ t) = false.
Proof.
  revert q. induction p as [|a p IH]; intros [|b q] H; simpl in H; try done.
  change (String.eqb (String a (p +:+ s)) (String b (q +:+ t)) = false). simpl.
  destruct (Ascii.eqb a b); [by apply IH | done].
Qed.

Lemma diverge_startswith (p q s t : string) :
  diverge p q = true → startswith (p +:+ s) (q +:+ t) = false.
Proof.
  revert q. induction p as [|a p IH]; intros [|b q] H; simpl in H; try done.
  change (startswith (String a (p +:+ s)) (String b (q +:+ t)) = false). simpl.
  destruct (Ascii.eqb a b); [by apply IH | done].
Qed.

(** Paths below roots that part ways share no location. *)
Lemma overlap_diverge (r1 r2 s t : string) :
  diverge r1 r2 = true → paths_overlap (r1 +:+ s) (r2 +:+ t) = false.
Proof.
  intros H. unfold paths_overlap, path_under.
  rewrite !string_app_assoc.
  rewrite (diverge_eqb _ _ _ _ H), (diverge_startswith r2 r1) by (by rewrite diverge_sym).
  by rewrite (diverge_startswith _ _ _ _ H).
Qed.

(** Two different single-segment names below one root share no location. *)
Lemma overlap_same_root (r s t : string) :
  has_slash s = false → has_slash t = false → s ≠ t →
  paths_overlap (r +:+ s) (r +:+ t) = false.
Proof.
  intros Hs Ht Hne. unfold paths_overlap, path_under.
  rewrite !string_app_assoc, eqb_app_l, !startswith_app_l.
  apply String.eqb_neq in Hne. rewrite Hne. simpl.
  apply orb_false_iff; split.
  - destruct (startswith (t +:+ "/") s) eqn:E; [| done].
    apply startswith_has_slash in E; [congruence |].
    rewrite has_slash_app. apply orb_true_r.
  - destruct (startswith (s +:+ "/") t) eqn:E; [| done].
    apply startswith_has_slash in E; [congruence |].
    rewrite has_slash_app. apply orb_true_r.
Qed.

Lemma job_paths_uuid (a : string) :
  is_uuid a = true →
  job_paths a =
    [ "/workspace/ingest/" +:+ a;
      "/workspace/colmap_workspace/" +:+ a;
      "/workspace/nerfstudio_dataset/" +:+ a;
      "/workspace/colmap_workspace/" +:+ ("config_" +:+ a +:+ ".json") ].
Proof.
  intros H. unfold job_paths, config_path_of, os_path_join.
  rewrite (is_uuid_relative a H). reflexivity.
Qed.

Lemma config_name_no_slash (a : string) :
  is_uuid a = true → has_slash ("config_" +:+ a +:+ ".json") = false.
Proof.
  intros H. rewrite !has_slash_app, (is_uuid_no_slash a H). reflexivity.
Qed.

Lemma config_name_not_uuid (a b : string) :
  is_uuid a = true → is_uuid b = true → a ≠ "config_" +:+ b +:+ ".json".
Proof.
  intros Ha Hb E. apply (f_equal String.length) in E.
  rewrite !length_app_string, (is_uuid_length a Ha), (is_uuid_length b Hb) in E.
  simpl in E. lia.
Qed.

Lemma config_name_inj (a b : string) :
  "config_" +:+ a +:+ ".json" = "config_" +:+ b +:+ ".json" → a = b.
Proof.
  intros E.
  change ("config_" +:+ a +:+ ".json") with (("config_" +:+ a) +:+ ".json") in E.
  rewrite <- !string_app_assoc in E.
  apply string_app_inv_tail in E.
  cbv [String.append] in E. by injection E.
Qed.

(** The paths of two different identifiers of UUID shape share no location. *)
Lemma job_paths_apart (a b p q : string) :
  is_uuid a = true → is_uuid b = true → a ≠ b →
  p ∈ job_paths a → q ∈ job_paths b → paths_overlap p q = false.
Proof.
  intros Ha Hb Hne Hp Hq.
  rewrite (job_paths_uuid a Ha) in Hp. rewrite (job_paths_uuid b Hb) in Hq.
  pose proof (is_uuid_no_slash a Ha) as Sa.
  pose proof (is_uuid_no_slash b Hb) as Sb.
  pose proof (config_name_no_slash a Ha) as Ca.
  pose proof (config_name_no_slash b Hb) as Cb.
  pose proof (config_name_not_uuid a b Ha Hb) as Nab.
  pose proof (config_name_not_uuid b a Hb Ha) as Nba.
  assert ("config_" +:+ a +:+ ".json" ≠ "config_" +:+ b +:+ ".json") as Ncc
    by (intros E; by apply config_name_inj in E).
  set_unfold in Hp. set_unfold in Hq.
  destruct Hp as [-> | [-> | [-> | [-> | []]]]];
    destruct Hq as [-> | [-> | [-> | [-> | []]]]];
    first [ by apply overlap_diverge | apply overlap_same_root; congruence ].
Qed.


(** ** What each operation does to the world *)

#[local] Arguments generate_job_id : simpl never.
#[local] Arguments os_path_join : simpl never.

Ltac unfold_M :=
  unfold mbind, M_bind, mret, M_ret, raise, try_except, fs_op, isdir, json_dump_to,
    write_bytes_to, subprocess_run, jobs_setitem, jobs_getitem, jobs_contains, add_task,
    name_ref in *.

(** Staging touches the filesystem only. *)
Lemma stage_input_frame (dir : string) (request : ProcessingRequest) (w : World) :
  let out := stage_input dir request w in
  PROCESSING_JOBS out.2 = PROCESSING_JOBS w
  ∧ background_tasks out.2 = background_tasks w
  ∧ trace out.2 = trace w.
Proof.
  unfold stage_input. unfold_M.
  destruct (os_makedirs (fs w) dir) as [fs1 | e]; simpl; [| done].
  destruct (os_path_isdir fs1 (req_input_path request)); simpl.
  - destruct (shutil_copytree fs1 (req_input_path request) dir); done.
  - destruct (shutil_copy fs1 (req_input_path request) dir); done.
Qed.

(** A submission, in terms of its staging step. *)
Lemma start_processing_unfold (rnd : N) (request : ProcessingRequest) (w : World) :
  let id := generate_job_id rnd in
  let dir := os_path_join INGEST_DIR id in
  start_processing rnd request w =
    match stage_input dir request w with
    | (Ok _, w1) =>
        (Ok {| js_job_id := id;
               js_status := "queued";
               js_message := Some "Job is queued for processing";
               js_output_path := None |},
         mkWorld (<[id := queued_record]> (PROCESSING_JOBS w1)) (fs w1)
           (background_tasks w1 ++ [job_params_of id dir request]) (trace w1))
    | (Raise e, w1) => (Raise e, w1)
    end.
Proof.
  intros id dir. unfold start_processing. cbv zeta. fold id. fold dir.
  unfold mbind at 1. unfold M_bind at 1.
  destruct (stage_input dir request w) as [[[] | e] w1]. 2: done.
  unfold_M. unfold set_background, set_jobs. simpl.
  rewrite !lookup_insert_eq. simpl. rewrite lookup_insert_eq. done.
Qed.

Lemma write_config_frame (params : JobParams) (w : World) :
  let out := write_config params w in
  PROCESSING_JOBS out.2 = PROCESSING_JOBS w ∧ background_tasks out.2 = background_tasks w.
Proof.
  unfold write_config. unfold_M.
  destruct (config_truthy (config params)); [| done].
  destruct (write_file _ _ _); done.
Qed.

Lemma write_config_unfold (params : JobParams) (w : World) :
  write_config params w =
    match config params with
    | Some (m :: doc) =>
        match write_file (fs w) (config_path_of (job_id params)) (JsonDoc (m :: doc)) with
        | Ok fs1 =>
            (Ok (Some (config_path_of (job_id params))),
             log_event (FileWritten (config_path_of (job_id params))) (set_fs fs1 w))
        | Raise e => (Raise e, w)
        end
    | _ => (Ok None, w)
    end.
Proof.
  unfold write_config. destruct (config params) as [[| m doc] |]; try done.
  cbn [config_truthy default from_option id]. unfold_M.
  by destruct (write_file _ _ _).
Qed.

(** A background execution, in terms of its two environment-facing steps. *)
Lemma run_colmap_script_unfold (proc : Subprocess) (params : JobParams) (w : World) :
  run_colmap_script proc params w =
    match write_config params w with
    | (Raise e, w1) =>
        (Ok tt, set_jobs (<[job_id params := failed_record (str e)]> (PROCESSING_JOBS w1)) w1)
    | (Ok config_file, w1) =>
        let cmd := build_cmd params config_file in
        let w2 := log_event (SubprocessRun cmd) (set_fs (proc cmd (fs w1)).2 w1) in
        match (proc cmd (fs w1)).1 with
        | Raise e =>
            (Ok tt, set_jobs (<[job_id params := failed_record (str e)]> (PROCESSING_JOBS w2)) w2)
        | Ok result =>
            (Ok tt,
             set_jobs (<[job_id params :=
                           if Z.eqb (returncode result) 0
                           then completed_record (job_id params)
                           else failed_record (stderr result)]> (PROCESSING_JOBS w2)) w2)
        end
    end.
Proof.
  unfold run_colmap_script, try_except.
  unfold mbind at 1. unfold M_bind at 1.
  destruct (write_config params w) as [[config_file | e] w1]; [| done].
  unfold mbind, M_bind, subprocess_run, jobs_setitem. simpl.
  destruct (proc (build_cmd params config_file) (fs w1)) as [[result | e] fs2]; simpl; [| done].
  destruct (Z.eqb (returncode result) 0); done.
Qed.

Lemma get_job_status_unfold (id : string) (w : World) :
  get_job_status id w =
    match PROCESSING_JOBS w !! id with
    | Some r =>
        (Ok {| js_job_id := id;
               js_status := status r;
               js_message := Some (message r);
               js_output_path := output_path r |}, w)
    | None => (Raise (HTTPException 404 "Job not found"), w)
    end.
Proof.
  unfold get_job_status. unfold_M.
  destruct (PROCESSING_JOBS w !! id) as [r |] eqn:E.
  - rewrite bool_decide_eq_true_2 by eauto. simpl.
    rewrite E. simpl. rewrite E. simpl. by rewrite E.
  - rewrite bool_decide_eq_false_2 by (by intros [? ?]). done.
Qed.

Lemma name_ref_unbound (n : string) (w : World) :
  existsb (String.eqb n) module_globals = false →
  name_ref n w = (Raise (NameError n), w).
Proof. intros H. unfold name_ref. by rewrite H. Qed.

Lemma upload_files_raises (rnd : N) (files : list UploadFile) (w : World) :
  upload_files rnd files w = (Raise (NameError "File"), w).
Proof.
  unfold upload_files. unfold mbind at 1. unfold M_bind at 1.
  by rewrite name_ref_unbound.
Qed.

Lemma process_uploaded_files_raises (rnd : N) (files : list UploadFile)
    (c m g r s : option string) (w : World) :
  process_uploaded_files rnd files c m g r s w = (Raise (NameError "File"), w).
Proof.
  unfold process_uploaded_files. unfold mbind at 1. unfold M_bind at 1.
  by rewrite name_ref_unbound.
Qed.

Lemma save_files_frame (dir : string) (files : list UploadFile) (w : World) :
  let out := save_files dir files w in
  PROCESSING_JOBS out.2 = PROCESSING_JOBS w ∧ background_tasks out.2 = background_tasks w.
Proof.
  destruct files as [| f files]; [done |].
  cbn [save_files]. unfold mbind at 1. unfold M_bind at 1.
  by rewrite name_ref_unbound.
Qed.

Lemma process_uploaded_files_body_frame (rnd : N) (files : list UploadFile)
    (w w' : World) (r : Result (option JobStatus)) :
  process_uploaded_files_body rnd files w = (r, w') →
  PROCESSING_JOBS w' = PROCESSING_JOBS w ∧ background_tasks w' = background_tasks w
  ∧ ∀ js, r ≠ Ok (Some js).
Proof.
  unfold process_uploaded_files_body. cbv zeta.
  generalize (os_path_join INGEST_DIR (generate_job_id rnd)). intros dir.
  unfold mbind at 1. unfold M_bind at 1. unfold fs_op.
  destruct (os_makedirs (fs w) dir) as [fs1 | e]; [| by intros [= <- <-]].
  unfold mbind, M_bind.
  pose proof (save_files_frame dir files (set_fs fs1 w)) as H.
  destruct (save_files dir files (set_fs fs1 w)) as [[[] | e] w2];
    destruct H as [H1 H2]; cbn [fst snd] in *; intros [= <- <-]; rewrite H1, H2; done.
Qed.

(** ** Steps of the service *)

Ltac world_simpl :=
  cbn [PROCESSING_JOBS background_tasks trace fs set_jobs set_fs set_background
       log_event fst snd] in *.

Lemma step_cases (s : Step) (w : World) :
  (PROCESSING_JOBS (step s w) = PROCESSING_JOBS w
   ∧ background_tasks (step s w) = background_tasks w)
  ∨ (∃ rnd request,
       s = Submit rnd request
       ∧ PROCESSING_JOBS (step s w) =
           <[generate_job_id rnd := queued_record]> (PROCESSING_JOBS w)
       ∧ background_tasks (step s w) =
           background_tasks w ++
             [job_params_of (generate_job_id rnd)
                (os_path_join INGEST_DIR (generate_job_id rnd)) request])
  ∨ (∃ i proc p r,
       s = Execute i proc
       ∧ background_tasks w !! i = Some p
       ∧ PROCESSING_JOBS (step s w) = <[job_id p := r]> (PROCESSING_JOBS w)
       ∧ (r = completed_record (job_id p) ∨ ∃ text, r = failed_record text)
       ∧ background_tasks (step s w) = delete i (background_tasks w)).
Proof.
  destruct s as [rnd request | id | | rnd files | rnd files c m g r sc | i proc | fs'];
    cbn [step].
  - rewrite start_processing_unfold.
    pose proof (stage_input_frame (os_path_join INGEST_DIR (generate_job_id rnd)) request w)
      as (Hj & Hb & _).
    destruct (stage_input _ request w) as [[[] | e] w1]; world_simpl.
    + right; left. exists rnd, request. by rewrite Hj, Hb.
    + left. by rewrite Hj, Hb.
  - left. rewrite get_job_status_unfold. by destruct (PROCESSING_JOBS w !! id).
  - by left.
  - left. by rewrite upload_files_raises.
  - left. by rewrite process_uploaded_files_raises.
  - destruct (background_tasks w !! i) as [p |] eqn:Hp; [| by left].
    right; right. rewrite run_colmap_script_unfold.
    set (w0 := set_background (delete i (background_tasks w)) w).
    pose proof (write_config_frame p w0) as [Hj Hb].
    destruct (write_config p w0) as [[config_file | e] w1]; world_simpl.
    + cbv zeta.
      destruct (proc (build_cmd p config_file) (fs w1)) as [[result | e] fs2]; world_simpl.
      * exists i, proc, p,
          (if Z.eqb (returncode result) 0 then completed_record (job_id p)
           else failed_record (stderr result)).
        rewrite Hj, Hb. split_and!; try done.
        destruct (Z.eqb (returncode result) 0); eauto.
      * exists i, proc, p, (failed_record (str e)). rewrite Hj, Hb. split_and!; eauto.
    + exists i, proc, p, (failed_record (str e)). world_simpl. rewrite Hj, Hb. split_and!; eauto.
  - by left.
Qed.

Lemma run_app (w : World) (pre post : list Step) :
  run w (pre ++ post) = run (run w pre) post.
Proof. apply fold_left_app. Qed.


Lemma jobs_shape_step (s : Step) (w : World) : jobs_shape w → jobs_shape (step s w).
Proof.
  intros Hw id r.
  destruct (step_cases s w) as [[-> _] | [(rnd & request & _ & -> & _) | (i & proc & p & r0 & _ & _ & -> & Hr & _)]].
  - apply Hw.
  - rewrite lookup_insert. case_decide as E; [intros [= <-]; by left | apply Hw].
  - rewrite lookup_insert. case_decide as E; [| apply Hw].
    intros [= <-]. subst id. right. destruct Hr as [-> | [t ->]]; eauto.
Qed.

Lemma jobs_shape_run (steps : list Step) (w : World) :
  jobs_shape w → jobs_shape (run w steps).
Proof.
  revert w. induction steps as [| s steps IH]; intros w Hw; [done |].
  simpl. apply IH. by apply jobs_shape_step.
Qed.

Lemma jobs_shape_initial (fs0 : gmap string node) : jobs_shape (initial_world fs0).
Proof. intros id r H. simpl in H. by rewrite lookup_empty in H. Qed.

Lemma known_ids_step (ids : list string) (s : Step) (w : World) :
  known_ids ids w → known_ids (ids ++ submitted_ids [s]) (step s w).
Proof.
  intros [Hj Hb].
  destruct (step_cases s w) as [[Ej Eb] | [(rnd & request & -> & Ej & Eb) | (i & proc & p & r0 & -> & Hp & Ej & _ & Eb)]];
    unfold known_ids; rewrite ?Ej, ?Eb; split.
  - intros id H. apply elem_of_app. left. by apply Hj.
  - intros p H. apply elem_of_app. left. by apply Hb.
  - intros id H. apply elem_of_app. rewrite lookup_insert in H. case_decide as E.
    + right. subst id. apply list_elem_of_here.
    + left. by apply Hj.
  - intros p H. apply elem_of_app. apply elem_of_app in H as [H | H].
    + left. by apply Hb.
    + right. apply list_elem_of_singleton in H as ->. apply list_elem_of_here.
  - intros id H. apply elem_of_app. left. rewrite lookup_insert in H. case_decide as E.
    + subst id. apply Hb. eapply list_elem_of_lookup_2. exact Hp.
    + by apply Hj.
  - intros q H. apply elem_of_app. left. apply Hb.
    by apply list_elem_of_delete_inv in H.
Qed.

Lemma known_ids_run (steps : list Step) (ids : list string) (w : World) :
  known_ids ids w → known_ids (ids ++ submitted_ids steps) (run w steps).
Proof.
  revert ids w. induction steps as [| s steps IH]; intros ids w Hw.
  - simpl. by rewrite app_nil_r.
  - change (s :: steps) with ([s] ++ steps).
    unfold submitted_ids. rewrite flat_map_app. fold (submitted_ids [s]). fold (submitted_ids steps).
    rewrite app_assoc. simpl run. apply IH. by apply known_ids_step.
Qed.

Lemma known_ids_initial (fs0 : gmap string node) : known_ids [] (initial_world fs0).
Proof.
  split; simpl.
  - intros id [r H]. by rewrite lookup_empty in H.
  - intros p H. by apply elem_of_nil in H.
Qed.






Lemma submitted_ids_cons (s : Step) (steps : list Step) :
  submitted_ids (s :: steps) = submitted_ids [s] ++ submitted_ids steps.
Proof. unfold submitted_ids. cbn [flat_map]. by rewrite app_nil_r. Qed.


(** ** Staging and missing inputs *)

(** [os.makedirs] changes nothing outside the prefixes it walks. *)
Lemma makedirs_from_other (prefixes : list string) (fs0 fs1 : gmap string node) (p : string) :
  makedirs_from fs0 prefixes = Ok fs1 → p ∉ prefixes → fs1 !! p = fs0 !! p.
Proof.
  revert fs0. induction prefixes as [| q rest IH]; intros fs0 H Hp; cbn in H.
  - by injection H as ->.
  - apply not_elem_of_cons in Hp as [Hne Hp].
    destruct (fs0 !! q) as [[c |] |] eqn:E.
    + by destruct rest.
    + by apply IH.
    + rewrite (IH _ H Hp). by apply lookup_insert_ne.
Qed.

Lemma os_makedirs_other (fs0 fs1 : gmap string node) (name p : string) :
  os_makedirs fs0 name = Ok fs1 → p ∉ path_prefixes name → fs1 !! p = fs0 !! p.
Proof.
  unfold os_makedirs. destruct (String.eqb name ""); [done |].
  apply makedirs_from_other.
Qed.

(** Staging as a function of the filesystem. *)
Lemma stage_input_unfold (dir : string) (request : ProcessingRequest) (w : World) :
  stage_input dir request w =
    match os_makedirs (fs w) dir with
    | Raise e => (Raise e, w)
    | Ok fs1 =>
        match (if os_path_isdir fs1 (req_input_path request)
               then shutil_copytree fs1 (req_input_path request) dir
               else shutil_copy fs1 (req_input_path request) dir) with
        | Ok fs2 => (Ok tt, set_fs fs2 w)
        | Raise e => (Raise e, set_fs fs1 w)
        end
    end.
Proof.
  unfold stage_input. unfold_M.
  destruct (os_makedirs (fs w) dir) as [fs1 | e]; [| done].
  change (fs (set_fs fs1 w)) with fs1.
  destruct (os_path_isdir fs1 (req_input_path request)).
  - change (fs (set_fs fs1 w)) with fs1.
    by destruct (shutil_copytree fs1 (req_input_path request) dir).
  - change (fs (set_fs fs1 w)) with fs1.
    by destruct (shutil_copy fs1 (req_input_path request) dir).
Qed.

(** Once the staging directory exists, an input path that names nothing is
    refused by [shutil.copy], and the submission stops before the registry
    is touched. *)
Lemma start_processing_missing_after_makedirs
    (rnd : N) (request : ProcessingRequest) (w : World) (fs1 : gmap string node) :
  os_makedirs (fs w) (os_path_join INGEST_DIR (generate_job_id rnd)) = Ok fs1 →
  fs1 !! req_input_path request = None →
  start_processing rnd request w =
    (Raise (FileNotFoundError (req_input_path request)), set_fs fs1 w).
Proof.
  intros Hmk Hnone. rewrite start_processing_unfold, stage_input_unfold, Hmk.
  unfold os_path_isdir, shutil_copy. by rewrite Hnone.
Qed.

(** A submission that raises leaves the registry and the schedule as they
    were. *)
Lemma start_processing_failure_frame
    (rnd : N) (request : ProcessingRequest) (w w' : World) (e : Exception) :
  start_processing rnd request w = (Raise e, w') →
  PROCESSING_JOBS w' = PROCESSING_JOBS w
  ∧ background_tasks w' = background_tasks w
  ∧ trace w' = trace w.
Proof.
  rewrite start_processing_unfold.
  pose proof (stage_input_frame (os_path_join INGEST_DIR (generate_job_id rnd)) request w) as H.
  destruct (stage_input _ request w) as [[[] | e1] w1]; [done |].
  intros [= <- <-]. exact H.
Qed.

(** The part of the missing-input contract that the code keeps: an input
    path that names nothing, and is not one of the directories that staging
    itself creates, makes the submission fail without registering a job. *)
Lemma missing_input_rejected (rnd : N) (request : ProcessingRequest) (w : World) :
  os_path_exists (fs w) (req_input_path request) = false →
  req_input_path request ∉ path_prefixes (os_path_join INGEST_DIR (generate_job_id rnd)) →
  ∃ e w',
    start_processing rnd request w = (Raise e, w')
    ∧ PROCESSING_JOBS w' = PROCESSING_JOBS w
    ∧ background_tasks w' = background_tasks w
    ∧ (∀ fs1, os_makedirs (fs w) (os_path_join INGEST_DIR (generate_job_id rnd)) = Ok fs1 →
         e = FileNotFoundError (req_input_path request)).
Proof.
  intros Hmissing Hfresh.
  assert (fs w !! req_input_path request = None) as Hnone.
  { unfold os_path_exists in Hmissing. by destruct (fs w !! req_input_path request). }
  destruct (os_makedirs (fs w) (os_path_join INGEST_DIR (generate_job_id rnd)))
    as [fs1 | e] eqn:Hmk.
  - exists (FileNotFoundError (req_input_path request)), (set_fs fs1 w).
    rewrite (start_processing_missing_after_makedirs rnd request w fs1 Hmk).
    + by split_and!.
    + by rewrite (os_makedirs_other _ _ _ _ Hmk Hfresh).
  - exists e, w. rewrite start_processing_unfold, stage_input_unfold, Hmk. by split_and!.
Qed.

(** ** When staging succeeds *)

Lemma string_app_nil_r (s : string) : s +:+ "" = s.
Proof. induction s as [| c s IH]; [done |]. change (String c (s +:+ "") = String c s). by rewrite IH. Qed.

Lemma string_app_nonempty (s t : string) : t ≠ "" → String.eqb (s +:+ t) "" = false.
Proof.
  intros Ht. apply String.eqb_neq. intros E.
  apply (f_equal String.length) in E. rewrite length_app_string in E.
  destruct t; [done |]. simpl in E. lia.
Qed.

Lemma endswith_slash_app (s t : string) :
  t ≠ "" → endswith_slash (s +:+ t) = endswith_slash t.
Proof.
  intros Ht. induction s as [| c s IH]; [done |].
  change (endswith_slash (String c (s +:+ t)) = endswith_slash t).
  cbn [endswith_slash]. destruct (s +:+ t) eqn:E; [| done].
  apply (f_equal String.length) in E. rewrite length_app_string in E.
  destruct t; [done |]. simpl in E. lia.
Qed.

Lemma no_slash_not_endswith (t : string) : has_slash t = false → endswith_slash t = false.
Proof.
  unfold has_slash. induction t as [| c t IH]; [done |].
  cbn [list_ascii_of_string existsb endswith_slash]. intros H.
  apply orb_false_iff in H as [Hc Ht].
  destruct t; [by rewrite Ascii.eqb_sym | by apply IH].
Qed.

Lemma no_slash_relative (t : string) : has_slash t = false → startswith "/" t = false.
Proof.
  unfold has_slash. destruct t as [| c t]; [done |].
  cbn [list_ascii_of_string existsb startswith]. intros H.
  apply orb_false_iff in H as [-> _]. done.
Qed.

Lemma os_path_basename_no_slash (p : string) : has_slash (os_path_basename p) = false.
Proof.
  induction p as [| a p IH]; [done |].
  cbn [os_path_basename]. destruct (has_slash p) eqn:Hp; [exact IH |].
  destruct (Ascii.eqb a "/") eqn:Ha; [exact Hp |].
  unfold has_slash in *. cbn [list_ascii_of_string existsb].
  by rewrite Ascii.eqb_sym, Ha, Hp.
Qed.

(** The join of a directory that does not end in a separator with a
    relative name. *)
Lemma os_path_join_relative (a b : string) :
  startswith "/" b = false → String.eqb a "" || endswith_slash a = false →
  os_path_join a b = a +:+ "/" +:+ b.
Proof. intros Hb Ha. unfold os_path_join. by rewrite Hb, Ha. Qed.

(** A single path segment adds exactly one prefix. *)
Lemma path_prefixes_from_name (name acc : string) :
  has_slash name = false → name ≠ "" →
  path_prefixes_from acc name = [acc +:+ name].
Proof.
  revert acc. induction name as [| a name IH]; intros acc Hs Hne; [done |].
  unfold has_slash in Hs. cbn [list_ascii_of_string existsb] in Hs.
  apply orb_false_iff in Hs as [Ha Hs].
  cbn [path_prefixes_from]. rewrite Ascii.eqb_sym, Ha. cbn [andb app].
  destruct name as [| b name].
  - cbn [path_prefixes_from].
    rewrite string_app_nonempty by done.
    rewrite endswith_slash_app by done. cbn [endswith_slash orb].
    by rewrite Ascii.eqb_sym, Ha.
  - rewrite (IH (acc +:+ String a "") Hs) by done.
    by rewrite string_app_assoc.
Qed.

(** Appending one more segment to a path appends one more prefix. *)
Lemma path_prefixes_from_segment (x acc name : string) :
  String.eqb (acc +:+ x) "" || endswith_slash (acc +:+ x) = false →
  has_slash name = false → name ≠ "" →
  path_prefixes_from acc (x +:+ "/" +:+ name) =
    path_prefixes_from acc x ++ [acc +:+ x +:+ "/" +:+ name].
Proof.
  revert acc. induction x as [| a x IH]; intros acc Hacc Hs Hne.
  - rewrite string_app_nil_r in Hacc.
    change ("" +:+ "/" +:+ name) with (String "/" name).
    cbn [path_prefixes_from]. rewrite Hacc. cbn [Ascii.eqb Bool.eqb andb negb app].
    rewrite (path_prefixes_from_name name (acc +:+ "/") Hs Hne).
    by rewrite string_app_assoc.
  - change (String a x +:+ "/" +:+ name) with (String a (x +:+ "/" +:+ name)).
    cbn [path_prefixes_from].
    rewrite (IH (acc +:+ String a "")); [| by rewrite string_app_assoc | done | done].
    rewrite <- app_assoc. do 2 f_equal. by rewrite string_app_assoc.
Qed.

(** The directories that creating a job's staging directory walks. *)
Lemma staging_dir_prefixes (id : string) :
  is_uuid id = true →
  os_path_join INGEST_DIR id = "/workspace/ingest/" +:+ id
  ∧ path_prefixes (os_path_join INGEST_DIR id) =
      ["/workspace"; "/workspace/ingest"; "/workspace/ingest/" +:+ id].
Proof.
  intros Hid.
  assert (id ≠ "") as Hne by (intros ->; done).
  assert (os_path_join INGEST_DIR id = "/workspace/ingest/" +:+ id) as ->.
  { rewrite os_path_join_relative; [done | by apply is_uuid_relative | done]. }
  split; [done |].
  change ("/workspace/ingest/" +:+ id) with ("/workspace/ingest" +:+ "/" +:+ id).
  unfold path_prefixes.
  rewrite path_prefixes_from_segment; [done | done | by apply is_uuid_no_slash | done].
Qed.

(** [os.makedirs] succeeds when no regular file is in the way, and leaves a
    directory at every prefix. *)
Lemma makedirs_from_ok (prefixes : list string) (fs0 : gmap string node) :
  (∀ p c, p ∈ prefixes → fs0 !! p ≠ Some (File c)) →
  ∃ fs1,
    makedirs_from fs0 prefixes = Ok fs1
    ∧ (∀ p, p ∈ prefixes → fs1 !! p = Some Dir)
    ∧ (∀ p, p ∉ prefixes → fs1 !! p = fs0 !! p).
Proof.
  revert fs0. induction prefixes as [| q rest IH]; intros fs0 Hfree.
  - exists fs0. split_and!; [done | | done]. intros p Hp. by apply elem_of_nil in Hp.
  - cbn [makedirs_from].
    destruct (fs0 !! q) as [[c |] |] eqn:Hq.
    + exfalso. apply (Hfree q c); [apply list_elem_of_here | done].
    + destruct (IH fs0) as (fs1 & Hmk & Hdir & Hother).
      { intros p c Hp. apply Hfree. by apply list_elem_of_further. }
      exists fs1. split_and!; [done | |].
      * intros p Hp. destruct (decide (p ∈ rest)) as [Hin | Hout]; [by apply Hdir |].
        apply elem_of_cons in Hp as [-> | Hp]; [| done]. by rewrite Hother.
      * intros p Hp. apply not_elem_of_cons in Hp as [_ Hp]. by apply Hother.
    + destruct (IH (<[q := Dir]> fs0)) as (fs1 & Hmk & Hdir & Hother).
      { intros p c Hp. rewrite lookup_insert. case_decide; [done |].
        apply Hfree. by apply list_elem_of_further. }
      exists fs1. split_and!; [done | |].
      * intros p Hp. destruct (decide (p ∈ rest)) as [Hin | Hout]; [by apply Hdir |].
        apply elem_of_cons in Hp as [-> | Hp]; [| done].
        rewrite Hother by done. apply lookup_insert_eq.
      * intros p Hp. apply not_elem_of_cons in Hp as [Hne Hp].
        rewrite Hother by done. by apply lookup_insert_ne.
Qed.

(** Staging a regular file. When the input path names a regular file, no
    regular file stands where the staging directory and its parents go, and
    the staging directory does not yet hold an entry of the file's name, the
    staging step succeeds and leaves a copy of the file in the job's input
    directory. *)
Lemma stage_regular_file
    (rnd : N) (request : ProcessingRequest) (w : World) (c : content) :
  let dir := os_path_join INGEST_DIR (generate_job_id rnd) in
  let name := os_path_basename (req_input_path request) in
  fs w !! req_input_path request = Some (File c) →
  (∀ p c', p ∈ path_prefixes dir → fs w !! p ≠ Some (File c')) →
  name ≠ "" →
  fs w !! (dir +:+ "/" +:+ name) = None →
  ∃ w1,
    stage_input dir request w = (Ok tt, w1)
    ∧ fs w1 !! (dir +:+ "/" +:+ name) = Some (File c).
Proof.
  intros dir name Hsrc Hfree Hname Htarget.
  pose proof (generate_job_id_is_uuid rnd) as Hid.
  destruct (staging_dir_prefixes _ Hid) as [Hdir Hprefixes].
  fold dir in Hdir, Hprefixes. clearbody dir.
  pose proof (os_path_basename_no_slash (req_input_path request)) as Hslash.
  subst name. remember (os_path_basename (req_input_path request)) as name eqn:Ename.
  assert (generate_job_id rnd ≠ "") as Hne by (intros E; by rewrite E in Hid).
  assert (String.eqb dir "" || endswith_slash dir = false) as Hend.
  { rewrite Hdir, string_app_nonempty, endswith_slash_app by done.
    by apply no_slash_not_endswith, is_uuid_no_slash. }
  destruct (makedirs_from_ok (path_prefixes dir) (fs w) Hfree) as (fs1 & Hmk & Hdirs & Hother).
  assert (os_makedirs (fs w) dir = Ok fs1) as Hmakedirs.
  { unfold os_makedirs. apply orb_false_iff in Hend as [-> _]. exact Hmk. }
  assert (dir ∈ path_prefixes dir) as Hin.
  { rewrite Hprefixes, <- Hdir. do 2 apply list_elem_of_further. apply list_elem_of_here. }
  assert (path_prefixes (dir +:+ "/" +:+ name) = path_prefixes dir ++ [dir +:+ "/" +:+ name])
    as Htp.
  { unfold path_prefixes. by rewrite path_prefixes_from_segment. }
  assert (dir +:+ "/" +:+ name ∉ path_prefixes dir) as Hfresh.
  { rewrite Hprefixes, Hdir. intros Hp.
    assert (String.length (("/workspace/ingest/" +:+ generate_job_id rnd) +:+ "/" +:+ name)
            ≤ 54)%nat as Hlen.
    { set_unfold in Hp. destruct Hp as [Hp | [Hp | [Hp | []]]];
        apply (f_equal String.length) in Hp; rewrite Hp;
        rewrite ?length_app_string, ?(is_uuid_length _ Hid); simpl; lia. }
    rewrite !length_app_string, (is_uuid_length _ Hid) in Hlen. simpl in Hlen. lia. }
  assert (req_input_path request ∉ path_prefixes dir) as Hsrc_out.
  { intros Hp. by apply (Hfree _ c) in Hp. }
  assert (req_input_path request ≠ dir +:+ "/" +:+ name) as Hdiff.
  { intros E. rewrite E, Htarget in Hsrc. done. }
  apply String.eqb_neq in Hdiff.
  exists (set_fs (<[dir +:+ "/" +:+ name := File c]> fs1) w).
  split; [| apply lookup_insert_eq].
  rewrite stage_input_unfold, Hmakedirs.
  unfold os_path_isdir, shutil_copy, os_path_isdir.
  rewrite <- Ename, (Hother _ Hsrc_out), Hsrc, (Hdirs _ Hin).
  rewrite (os_path_join_relative dir name) by (by apply no_slash_relative || done).
  rewrite Hdiff.
  unfold write_file, open_w, parent_dir.
  rewrite (Hother _ Hfresh), Htarget, Htp, rev_app_distr, Hprefixes.
  cbn [rev app]. rewrite <- Hdir, (Hdirs _ Hin). done.
Qed.

(** A submission of a regular file on such a machine is accepted: it
    returns status "queued" under the generated identifier. *)
Lemma regular_file_submission_accepted
    (rnd : N) (request : ProcessingRequest) (w : World) (c : content) :
  fs w !! req_input_path request = Some (File c) →
  (∀ p c', p ∈ path_prefixes (os_path_join INGEST_DIR (generate_job_id rnd)) →
     fs w !! p ≠ Some (File c')) →
  os_path_basename (req_input_path request) ≠ "" →
  fs w !! (os_path_join INGEST_DIR (generate_job_id rnd) +:+ "/" +:+
           os_path_basename (req_input_path request)) = None →
  ∃ w',
    start_processing rnd request w =
      (Ok {| js_job_id := generate_job_id rnd;
             js_status := "queued";
             js_message := Some "Job is queued for processing";
             js_output_path := None |}, w').
Proof.
  intros Hsrc Hfree Hname Htarget.
  destruct (stage_regular_file rnd request w c Hsrc Hfree Hname Htarget) as (w1 & Hstage & _).
  rewrite start_processing_unfold, Hstage. by eexists.
Qed.

(** ** Scenarios *)

(** A valid directory input in batch mode and a pipeline that exits with
    status 0: the job ends completed, with its output directory. *)
Example scenario_completed :
  PROCESSING_JOBS completed_world !! example_id =
    Some {| status := "completed";
            message := "Processing completed successfully";
            output_path :=
              Some "/workspace/nerfstudio_dataset/00000000-0000-4000-8000-000000000001" |}.
Proof. vm_compute. reflexivity. Qed.

(** A pipeline that exits with status 1: the job ends failed, the captured
    standard error is its message and it has no output path. *)
Example scenario_failed :
  PROCESSING_JOBS
    (run (initial_world example_fs) [Submit 1 example_request; Execute 0 pipeline_fails])
    !! example_id =
  Some {| status := "failed"; message := "no images found"; output_path := None |}.
Proof. vm_compute. reflexivity. Qed.

(** The pipeline workspace root is missing when a job with a config runs:
    the configuration file cannot be created, the pipeline is never
    launched and the job ends failed with the error text. *)
Example scenario_config_not_writable :
  let w := run (initial_world (delete "/workspace/colmap_workspace" example_fs))
             [Submit 1 example_request; Execute 0 pipeline_ok] in
  PROCESSING_JOBS w !! example_id =
    Some {| status := "failed";
            message :=
              "[Errno 2] No such file or directory: " +:+
              "'/workspace/colmap_workspace/config_00000000-0000-4000-8000-000000000001.json'";
            output_path := None |}
  ∧ trace w = [].
Proof. vm_compute. split; reflexivity. Qed.

(** An input path that names nothing: the submission fails and the
    registry stays empty. *)
Example scenario_input_not_found :
  start_processing 1
    {| req_input_path := "/nope"; req_config := None; req_mode := "batch";
       req_gpu := "auto"; req_render_pipeline := "default"; req_scale := "default" |}
    (initial_world example_fs) =
  (Raise (FileNotFoundError "/nope"),
   set_fs (<["/workspace/ingest/00000000-0000-4000-8000-000000000001" := Dir]>
             (<["/workspace/ingest" := Dir]> example_fs))
     (initial_world example_fs)).
Proof. vm_compute. reflexivity. Qed.

(** Two jobs, the failing one finishing first: both reach their own
    terminal state. *)
Example scenario_two_jobs :
  let w := run (initial_world example_fs)
             [ Submit 1 example_request; Submit 2 plain_request;
               Execute 1 pipeline_fails; Execute 0 pipeline_ok ] in
  status <$> PROCESSING_JOBS w !! generate_job_id 1 = Some "completed"
  ∧ status <$> PROCESSING_JOBS w !! generate_job_id 2 = Some "failed"
  ∧ background_tasks w = [].
Proof. vm_compute. by split_and!. Qed.

(** Listing after three submissions of which two have completed. *)
Example scenario_listing :
  let w := run (initial_world example_fs)
             [ Submit 1 example_request; Submit 2 plain_request; Submit 3 plain_request;
               Execute 0 pipeline_ok; Execute 0 pipeline_ok ] in
  (list_jobs w).1 = Ok (PROCESSING_JOBS w)
  ∧ size (PROCESSING_JOBS w) = 3
  ∧ status <$> PROCESSING_JOBS w !! generate_job_id 1 = Some "completed"
  ∧ status <$> PROCESSING_JOBS w !! generate_job_id 2 = Some "completed"
  ∧ status <$> PROCESSING_JOBS w !! generate_job_id 3 = Some "queued".
Proof. vm_compute. by split_and!. Qed.

(** A status query for a finished job, and for an identifier that was never
    submitted. *)
Example scenario_status_queries :
  get_job_status example_id completed_world =
    (Ok {| js_job_id := example_id;
           js_status := "completed";
           js_message := Some "Processing completed successfully";
           js_output_path :=
             Some "/workspace/nerfstudio_dataset/00000000-0000-4000-8000-000000000001" |},
     completed_world)
  ∧ get_job_status "3f2b8c1e-5d47-4a90-b6e2-9c0d1f7a8b34" completed_world =
      (Raise (HTTPException 404 "Job not found"), completed_world).
Proof. vm_compute. split; reflexivity. Qed.

(** * Properties of the specification *)

(** ** C1: a background execution always ends in a terminal record *)

(** C1. Every background execution of a job returns normally and replaces
    the job's registry record by one determined by what happened outside:
    an exception while the configuration file is written, or raised by
    [subprocess.run], gives status "failed" with the exception text as
    message; exit code 0 gives status "completed", the success message and
    the job's output directory as output path; any other exit code gives
    status "failed" with the captured standard error as message. No
    exception leaves [run_colmap_script]. *)
Theorem background_execution_terminal_record
    (proc : Subprocess) (params : JobParams) (w : World) :
  ∃ w' r,
    run_colmap_script proc params w = (Ok tt, w')
    ∧ PROCESSING_JOBS w' = <[job_id params := r]> (PROCESSING_JOBS w)
    ∧ match write_config params w with
      | (Raise e, _) =>
          r = {| status := "failed"; message := str e; output_path := None |}
      | (Ok config_file, w1) =>
          match (proc (build_cmd params config_file) (fs w1)).1 with
          | Raise e =>
              r = {| status := "failed"; message := str e; output_path := None |}
          | Ok result =>
              if Z.eqb (returncode result) 0
              then r = {| status := "completed";
                          message := "Processing completed successfully";
                          output_path :=
                            Some (os_path_join NERFSTUDIO_OUTPUT (job_id params)) |}
              else r = {| status := "failed";
                          message := stderr result;
                          output_path := None |}
          end
      end.
Proof.
  rewrite run_colmap_script_unfold.
  pose proof (write_config_frame params w) as [Hj _].
  destruct (write_config params w) as [[config_file | e] w1]; world_simpl.
  - cbv zeta.
    destruct (proc (build_cmd params config_file) (fs w1)) as [[result | e] fs2];
      world_simpl.
    + eexists _, _. split; [reflexivity |]. world_simpl. rewrite Hj. split; [reflexivity |].
      by destruct (Z.eqb (returncode result) 0).
    + eexists _, _. split; [reflexivity |]. world_simpl. by rewrite Hj.
  - eexists _, _. split; [reflexivity |]. world_simpl. by rewrite Hj.
Qed.

(** ** C2: the output path accompanies exactly the completed status *)

(** C2. In every state the service can reach from start-up, each stored
    record is the queued record, the completed record of its own
    identifier, or a failed record; its output path is present if and only
    if its status is "completed". *)
Theorem output_path_iff_completed
    (fs0 : gmap string node) (steps : list Step) (id : string) (r : JobRecord) :
  PROCESSING_JOBS (run (initial_world fs0) steps) !! id = Some r →
  (is_Some (output_path r) ↔ status r = "completed")
  ∧ (r = queued_record ∨ r = completed_record id ∨ ∃ text, r = failed_record text).
Proof.
  intros Hr.
  pose proof (jobs_shape_run steps _ (jobs_shape_initial fs0) id r Hr) as Hshape.
  split; [| exact Hshape].
  destruct Hshape as [-> | [-> | [text ->]]]; cbn.
  - split; [by intros [? ?] | done].
  - split; [done | by eexists].
  - split; [by intros [? ?] | done].
Qed.

Lemma output_path_iff_completed_witness :
  PROCESSING_JOBS completed_world !! example_id = Some (completed_record example_id)
  ∧ (is_Some (output_path (completed_record example_id))
     ↔ status (completed_record example_id) = "completed").
Proof.
  split; [vm_compute; reflexivity |].
  apply (output_path_iff_completed example_fs
           [Submit 1 example_request; Execute 0 pipeline_ok] example_id).
  vm_compute; reflexivity.
Defined.

(** ** C3: terminal statuses are final *)



(** ** C4: submission registers, schedules and returns *)



(** ** C5: a missing input path *)

(** C5. A submission whose input path names neither a file nor a directory
    is to fail at once, return no identifier and leave the registry
    unchanged. The code does not keep this at the following input. On a
    machine where the ingest root does not exist yet, a submission whose
    input path is that ingest root names nothing when it arrives. The
    staging directory is created first (api.py:143), which creates the
    ingest root on the way; the test at api.py:146 then finds a directory,
    the copy succeeds, and the submission registers a queued job and
    schedules its execution instead of failing. For every other missing
    path the property holds: see [missing_input_rejected]. *)
Theorem missing_input_path_is_registered :
  os_path_exists fresh_fs (req_input_path ingest_root_request) = false
  ∧ (start_processing 7 ingest_root_request (initial_world fresh_fs)).1 =
      Ok {| js_job_id := generate_job_id 7;
            js_status := "queued";
            js_message := Some "Job is queued for processing";
            js_output_path := None |}
  ∧ PROCESSING_JOBS (start_processing 7 ingest_root_request (initial_world fresh_fs)).2
      !! generate_job_id 7 = Some queued_record
  ∧ job_id <$> background_tasks
      (start_processing 7 ingest_root_request (initial_world fresh_fs)).2
    = [generate_job_id 7].
Proof. vm_compute. by split_and!. Qed.

(** ** C6: the per-job configuration file *)

(** C6. For a job with a non-empty config, the configuration file is the
    one named after the job's identifier below the pipeline workspace root;
    when it can be written, the write is the first thing the execution does,
    the pipeline is launched afterwards on a filesystem that holds the
    document, and the argument vector is the base vector followed by
    [--config] and that file's path; when it cannot be written, the
    pipeline is not launched. For a job whose config is missing or empty,
    nothing is written and the pipeline is launched with the base vector
    alone. The file's location belongs to this job only: no other
    identifier maps to it, and for identifiers of UUID shape it neither
    equals nor nests with any path of another job. *)
Theorem config_file_written_before_launch
    (proc : Subprocess) (params : JobParams) (w : World) :
  (∀ doc, config params = Some doc → doc ≠ [] →
     match write_file (fs w) (config_path_of (job_id params)) (JsonDoc doc) with
     | Ok fs1 =>
         fs1 !! config_path_of (job_id params) = Some (File (JsonDoc doc))
         ∧ trace (run_colmap_script proc params w).2 =
             trace w ++
               [ FileWritten (config_path_of (job_id params));
                 SubprocessRun
                   (base_cmd params ++ ["--config"; config_path_of (job_id params)]) ]
         ∧ fs (run_colmap_script proc params w).2 =
             (proc (base_cmd params ++ ["--config"; config_path_of (job_id params)])
                fs1).2
     | Raise e =>
         trace (run_colmap_script proc params w).2 = trace w
         ∧ fs (run_colmap_script proc params w).2 = fs w
     end)
  ∧ (config_truthy (config params) = false →
       trace (run_colmap_script proc params w).2 =
         trace w ++ [SubprocessRun (base_cmd params)]
       ∧ fs (run_colmap_script proc params w).2 = (proc (base_cmd params) (fs w)).2)
  ∧ (∀ other, config_path_of other = config_path_of (job_id params) →
       other = job_id params)
  ∧ (∀ other q,
       is_uuid (job_id params) = true → is_uuid other = true →
       other ≠ job_id params → q ∈ job_paths other →
       paths_overlap (config_path_of (job_id params)) q = false).
Proof.
  split_and!.
  - intros doc Hdoc Hne.
    rewrite run_colmap_script_unfold, write_config_unfold, Hdoc.
    destruct doc as [| m doc]; [done |].
    destruct (write_file (fs w) (config_path_of (job_id params)) (JsonDoc (m :: doc)))
      as [fs1 | e] eqn:Hw; [| done].
    split.
    { unfold write_file in Hw. destruct (open_w _ _); [| done].
      injection Hw as <-. apply lookup_insert_eq. }
    assert (build_cmd params (Some (config_path_of (job_id params)))
            = base_cmd params ++ ["--config"; config_path_of (job_id params)]) as ->.
    { unfold build_cmd.
      assert (config_path_of (job_id params) ≠ "") as Hpath by done.
      apply String.eqb_neq in Hpath. by rewrite Hpath. }
    cbv zeta. world_simpl.
    destruct (proc _ fs1) as [[result | e] fs2]; world_simpl; by rewrite <- app_assoc.
  - intros Hfalse.
    rewrite run_colmap_script_unfold, write_config_unfold.
    assert (build_cmd params None = base_cmd params) as Hcmd
      by (unfold build_cmd; apply app_nil_r).
    destruct (config params) as [[| m doc] |]; [| done |];
      rewrite Hcmd; cbv zeta;
      destruct (proc (base_cmd params) (fs w)) as [[result | e] fs2]; by world_simpl.
  - intros other H. unfold config_path_of, os_path_join in H.
    change (startswith "/" ("config_" +:+ ?x +:+ ".json")) with false in H.
    cbv [String.append COLMAP_WORKSPACE WORKSPACE_BASE os_path_join startswith
           String.eqb endswith_slash Ascii.eqb Bool.eqb orb andb] in H.
    fold String.append in H.
    injection H as H. by apply string_app_inv_tail in H.
  - intros other q Hid Hother Hne Hq.
    apply (job_paths_apart (job_id params) other _ q Hid Hother); [done | | done].
    unfold job_paths. do 3 apply list_elem_of_further. apply list_elem_of_here.
Qed.

Lemma config_file_written_before_launch_witness :
  paths_overlap (config_path_of (generate_job_id 1))
    (os_path_join COLMAP_WORKSPACE (generate_job_id 2)) = false.
Proof.
  pose proof (config_file_written_before_launch pipeline_ok
                (job_params_of (generate_job_id 1)
                   (os_path_join INGEST_DIR (generate_job_id 1)) example_request)
                (initial_world example_fs)) as (_ & _ & _ & H).
  apply (H (generate_job_id 2)); [vm_compute; reflexivity | vm_compute; reflexivity | |].
  - intros E. vm_compute in E. discriminate E.
  - apply list_elem_of_further, list_elem_of_here.
Defined.

(** ** C7: inserting under an identifier that is already registered *)

(** C7, counterexample. The identifier of a completed job is drawn again
    by a later submission. The submission does not fail: it returns status
    "queued", and the completed record stored under that identifier has
    been replaced by the queued record. *)
Lemma duplicate_insert_overwrites :
  PROCESSING_JOBS completed_world !! example_id = Some (completed_record example_id)
  ∧ (start_processing 1 plain_request completed_world).1 =
      Ok {| js_job_id := example_id;
            js_status := "queued";
            js_message := Some "Job is queued for processing";
            js_output_path := None |}
  ∧ PROCESSING_JOBS (start_processing 1 plain_request completed_world).2 !! example_id
      = Some queued_record.
Proof. vm_compute. by split_and!. Qed.

(** C7, amended. Storing the record of a submission under an identifier
    that is already a key of the registry does not fail: whenever staging
    succeeds the submission returns status "queued", and the registry is the
    old one with the record under that identifier replaced by the queued
    record. The code has no duplicate check. *)
Theorem duplicate_insert_replaces_record
    (rnd : N) (request : ProcessingRequest) (w w1 : World) (r : JobRecord) :
  PROCESSING_JOBS w !! generate_job_id rnd = Some r →
  stage_input (os_path_join INGEST_DIR (generate_job_id rnd)) request w = (Ok tt, w1) →
  ∃ resp w',
    start_processing rnd request w = (Ok resp, w')
    ∧ js_job_id resp = generate_job_id rnd
    ∧ js_status resp = "queued"
    ∧ PROCESSING_JOBS w' = <[generate_job_id rnd := queued_record]> (PROCESSING_JOBS w)
    ∧ PROCESSING_JOBS w' !! generate_job_id rnd = Some queued_record.
Proof.
  intros _ Hstage. rewrite start_processing_unfold.
  pose proof (stage_input_frame (os_path_join INGEST_DIR (generate_job_id rnd)) request w)
    as (Hj & _ & _).
  rewrite Hstage in *. world_simpl.
  eexists _, _. split; [reflexivity |]. world_simpl.
  rewrite Hj, lookup_insert_eq. done.
Qed.

Lemma duplicate_insert_replaces_record_witness :
  ∃ resp w',
    start_processing 1 plain_request completed_world = (Ok resp, w')
    ∧ js_job_id resp = generate_job_id 1
    ∧ js_status resp = "queued"
    ∧ PROCESSING_JOBS w' =
        <[generate_job_id 1 := queued_record]> (PROCESSING_JOBS completed_world)
    ∧ PROCESSING_JOBS w' !! generate_job_id 1 = Some queued_record.
Proof.
  apply (duplicate_insert_replaces_record 1 plain_request completed_world
           (stage_input (os_path_join INGEST_DIR (generate_job_id 1)) plain_request
              completed_world).2
           (completed_record example_id));
    vm_compute; reflexivity.
Defined.

(** ** C8: the status query *)

(** C8. A status query changes nothing. For an identifier that is a key of
    the registry it returns the identifier with the status, message and
    output path of the one record stored under it; for an identifier that
    is not a key it raises the 404 "Job not found" error. In every state
    the service can reach, an identifier that no submission has drawn is not
    a key, so querying it raises that error. *)
Theorem status_query_contract (id : string) :
  (∀ w r, PROCESSING_JOBS w !! id = Some r →
     get_job_status id w =
       (Ok {| js_job_id := id;
              js_status := status r;
              js_message := Some (message r);
              js_output_path := output_path r |}, w))
  ∧ (∀ w, PROCESSING_JOBS w !! id = None →
       get_job_status id w = (Raise (HTTPException 404 "Job not found"), w))
  ∧ (∀ fs0 steps, id ∉ submitted_ids steps →
       get_job_status id (run (initial_world fs0) steps) =
         (Raise (HTTPException 404 "Job not found"), run (initial_world fs0) steps)).
Proof.
  split_and!.
  - intros w r Hr. by rewrite get_job_status_unfold, Hr.
  - intros w Hr. by rewrite get_job_status_unfold, Hr.
  - intros fs0 steps Hid. rewrite get_job_status_unfold.
    destruct (PROCESSING_JOBS (run (initial_world fs0) steps) !! id) as [r |] eqn:Hr;
      [| done].
    destruct (known_ids_run steps [] _ (known_ids_initial fs0)) as [Hknown _].
    exfalso. apply Hid. apply (Hknown id). by eexists.
Qed.

(** ** C9: workspaces of different jobs are disjoint *)

(** C9. For any two different identifiers produced by [generate_job_id],
    every path derived from one (input staging directory, pipeline
    workspace directory, output directory, configuration file) and every
    path derived from the other are neither equal nor nested. *)
Theorem workspace_paths_disjoint (rnd1 rnd2 : N) (p q : string) :
  generate_job_id rnd1 ≠ generate_job_id rnd2 →
  p ∈ job_paths (generate_job_id rnd1) →
  q ∈ job_paths (generate_job_id rnd2) →
  paths_overlap p q = false.
Proof.
  intros Hne Hp Hq.
  apply (job_paths_apart (generate_job_id rnd1) (generate_job_id rnd2));
    auto using generate_job_id_is_uuid.
Qed.

Lemma workspace_paths_disjoint_witness :
  paths_overlap (os_path_join COLMAP_WORKSPACE (generate_job_id 1))
    (config_path_of (generate_job_id 2)) = false.
Proof.
  apply (workspace_paths_disjoint 1 2).
  - intros E. vm_compute in E. discriminate E.
  - apply list_elem_of_further, list_elem_of_here.
  - do 3 apply list_elem_of_further. apply list_elem_of_here.
Defined.

(** ** C10: the upload endpoints *)

(** C10. The names [UploadFile], [File], [Form] and [aiofiles] are not
    bound in the module. Both upload endpoints therefore end in a
    [NameError] whatever the request and the state, leaving the registry,
    the schedule and the filesystem as they were and producing no response.
    Independently of that, the body of the combined endpoint never writes
    the registry, never schedules a task and never returns a [JobStatus]. *)
Theorem upload_endpoints_raise_NameError :
  forallb (fun n => negb (existsb (String.eqb n) module_globals))
    ["UploadFile"; "File"; "Form"; "aiofiles"] = true
  ∧ (∀ rnd files w, ∃ n, upload_files rnd files w = (Raise (NameError n), w))
  ∧ (∀ rnd files c m g r s w,
       ∃ n, process_uploaded_files rnd files c m g r s w = (Raise (NameError n), w))
  ∧ (∀ rnd files w r w',
       process_uploaded_files_body rnd files w = (r, w') →
       PROCESSING_JOBS w' = PROCESSING_JOBS w
       ∧ background_tasks w' = background_tasks w
       ∧ ∀ js, r ≠ Ok (Some js)).
Proof.
  split_and!.
  - reflexivity.
  - intros. eexists. apply upload_files_raises.
  - intros. eexists. apply process_uploaded_files_raises.
  - intros rnd files w r w'. apply process_uploaded_files_body_frame.
Qed.

(** * Further properties of the code *)

(** ** Job identifiers *)

Lemma land_zero_bits (a b : N) (n : N) :
  N.land a b = 0%N → N.testbit a n && N.testbit b n = false.
Proof. intros H. by rewrite <- N.land_spec, H, N.bits_0. Qed.

Lemma uuid4_int_masks (rnd : N) :
  uuid4_int rnd = N.lor (N.land rnd uuid_random_mask) uuid_fixed_bits.
Proof.
  unfold uuid4_int, uuid_random_mask, uuid_fixed_bits.
  set (m1 := N.shiftl 0xc000 48). set (m2 := N.shiftl 0xf000 64).
  set (s1 := N.shiftl 0x8000 48). set (s2 := N.shiftl 4 76).
  apply N.bits_inj. intros n.
  rewrite !N.lor_spec, !N.ldiff_spec, !N.land_spec, !N.lor_spec, !N.ldiff_spec,
    !N.land_spec, !N.lor_spec.
  pose proof (land_zero_bits s1 m2 n eq_refl) as H.
  destruct (N.testbit rnd n), (N.testbit (N.ones 128) n), (N.testbit m1 n),
    (N.testbit m2 n), (N.testbit s1 n), (N.testbit s2 n); try reflexivity; discriminate H.
Qed.

Lemma hex_digit_inj (a b : N) :
  (a < 16)%N → (b < 16)%N → hex_digit a = hex_digit b → a = b.
Proof.
  intros Ha Hb.
  assert (∀ n, (n < 16)%N →
            n = 0 ∨ n = 1 ∨ n = 2 ∨ n = 3 ∨ n = 4 ∨ n = 5 ∨ n = 6 ∨ n = 7 ∨ n = 8 ∨ n = 9
            ∨ n = 10 ∨ n = 11 ∨ n = 12 ∨ n = 13 ∨ n = 14 ∨ n = 15)%N as Hcases by lia.
  destruct (Hcases a Ha) as [-> | [-> | [-> | [-> | [-> | [-> | [-> | [-> | [-> | [-> |
    [-> | [-> | [-> | [-> | [-> | ->]]]]]]]]]]]]]]];
  destruct (Hcases b Hb) as [-> | [-> | [-> | [-> | [-> | [-> | [-> | [-> | [-> | [-> |
    [-> | [-> | [-> | [-> | [-> | ->]]]]]]]]]]]]]]];
  intros H; first [reflexivity | discriminate H].
Qed.

Lemma nibble_lt (x k : N) : (N.land (N.shiftr x k) 15 < 16)%N.
Proof.
  change 15%N with (N.ones 4). rewrite N.land_ones.
  apply N.mod_lt. done.
Qed.

(** The hexadecimal digits of a number determine its low bits. *)
Lemma to_hex_inj (n : nat) (i j : N) :
  to_hex n i = to_hex n j →
  N.land i (N.ones (4 * N.of_nat n)) = N.land j (N.ones (4 * N.of_nat n)).
Proof.
  induction n as [| k IH]; intros H.
  - change (4 * N.of_nat 0)%N with 0%N. by rewrite !N.land_ones, !N.mod_1_r.
  - cbn [to_hex] in H. injection H as Hd Hrest.
    apply hex_digit_inj in Hd; [| apply nibble_lt | apply nibble_lt].
    specialize (IH Hrest).
    apply N.bits_inj. intros b.
    rewrite !N.land_spec.
    destruct (N.lt_ge_cases b (4 * N.of_nat k)) as [Hlow | Hhigh].
    + apply (f_equal (fun v => N.testbit v b)) in IH.
      rewrite !N.land_spec, N.ones_spec_low in IH by lia.
      rewrite !andb_true_r in IH. by rewrite IH.
    + destruct (N.lt_ge_cases b (4 * N.of_nat (S k))) as [Hin | Hout].
      * apply (f_equal (fun v => N.testbit v (b - 4 * N.of_nat k))) in Hd.
        rewrite !N.land_spec, !N.shiftr_spec' in Hd.
        change 15%N with (N.ones 4) in Hd.
        rewrite N.ones_spec_low in Hd by lia.
        rewrite !andb_true_r in Hd.
        replace (b - 4 * N.of_nat k + 4 * N.of_nat k)%N with b in Hd by lia.
        by rewrite Hd.
      * rewrite N.ones_spec_high by lia. by rewrite !andb_false_r.
Qed.

(** The dashed text determines the 32 digits. *)
Lemma uuid_str_inj (i j : N) : uuid_str i = uuid_str j → to_hex 32 i = to_hex 32 j.
Proof.
  unfold uuid_str. cbn [to_hex].
  repeat match goal with
         | |- context [hex_digit ?a] => generalize (hex_digit a); intro
         end.
  cbv. intros H. injection H. intros. by subst.
Qed.

Lemma uuid4_int_128 (rnd : N) : N.land (uuid4_int rnd) (N.ones 128) = uuid4_int rnd.
Proof.
  rewrite uuid4_int_masks, N.land_lor_distr_l, <- N.land_assoc.
  reflexivity.
Qed.

Lemma uuid4_int_random_bits (rnd : N) :
  N.land (uuid4_int rnd) uuid_random_mask = N.land rnd uuid_random_mask.
Proof.
  rewrite uuid4_int_masks, N.land_lor_distr_l, <- N.land_assoc.
  change (N.land uuid_random_mask uuid_random_mask) with uuid_random_mask.
  change (N.land uuid_fixed_bits uuid_random_mask) with 0%N.
  apply N.lor_0_r.
Qed.

(** X2. Two draws of random bits give the same job identifier exactly when
    they agree on the 122 bits that [uuid.uuid4] keeps: every bit outside
    the version and variant fields shows in the text, and nothing else of
    the draw does. *)
Theorem generate_job_id_random_bits (r1 r2 : N) :
  generate_job_id r1 = generate_job_id r2
  ↔ N.land r1 uuid_random_mask = N.land r2 uuid_random_mask.
Proof.
  split.
  - unfold generate_job_id. intros H.
    apply uuid_str_inj, to_hex_inj in H.
    change (4 * N.of_nat 32)%N with 128%N in H.
    rewrite !uuid4_int_128 in H.
    by rewrite <- (uuid4_int_random_bits r1), <- (uuid4_int_random_bits r2), H.
  - intros H. unfold generate_job_id. by rewrite !uuid4_int_masks, H.
Qed.

Lemma uuid4_nibble (rnd k : N) :
  N.land (N.shiftr (uuid4_int rnd) k) 15 =
    N.lor (N.land (N.shiftr rnd k) (N.land (N.shiftr uuid_random_mask k) 15))
          (N.land (N.shiftr uuid_fixed_bits k) 15).
Proof.
  rewrite uuid4_int_masks, N.shiftr_lor, N.shiftr_land, N.land_lor_distr_l.
  by rewrite N.land_assoc.
Qed.

Lemma uuid4_version_nibble (rnd : N) : N.land (N.shiftr (uuid4_int rnd) 76) 15 = 4%N.
Proof.
  rewrite uuid4_nibble.
  change (N.land (N.shiftr uuid_random_mask 76) 15) with 0%N.
  change (N.land (N.shiftr uuid_fixed_bits 76) 15) with 4%N.
  by rewrite N.land_0_r.
Qed.

Lemma uuid4_variant_nibble (rnd : N) :
  ∃ v, (v < 4)%N ∧ N.land (N.shiftr (uuid4_int rnd) 60) 15 = (8 + v)%N.
Proof.
  rewrite uuid4_nibble.
  change (N.land (N.shiftr uuid_random_mask 60) 15) with (N.ones 2).
  change (N.land (N.shiftr uuid_fixed_bits 60) 15) with 8%N.
  rewrite N.land_ones.
  exists (N.shiftr rnd 60 mod 2 ^ 2)%N.
  assert (N.shiftr rnd 60 mod 2 ^ 2 < 4)%N as Hlt by (apply N.mod_lt; done).
  split; [exact Hlt |].
  assert (∀ v, (v < 4)%N → N.lor v 8 = (8 + v)%N) as Hlor.
  { intros v Hv. assert (v = 0 ∨ v = 1 ∨ v = 2 ∨ v = 3)%N as [-> | [-> | [-> | ->]]] by lia;
      reflexivity. }
  by apply Hlor.
Qed.

(** X1. Every job identifier has the layout of a version-4 UUID: 36
    characters, a dash at offsets 8, 13, 18 and 23 and a lower-case
    hexadecimal digit everywhere else, the digit 4 at offset 14 (the
    version) and one of 8, 9, a, b at offset 19 (the variant). *)
Theorem generate_job_id_version_4 (rnd : N) :
  String.length (generate_job_id rnd) = 36%nat
  ∧ String.get 14 (generate_job_id rnd) = Some "4"%char
  ∧ (∃ c, String.get 19 (generate_job_id rnd) = Some c
          ∧ existsb (Ascii.eqb c) ["8"; "9"; "a"; "b"]%char = true)
  ∧ (∀ n c, String.get n (generate_job_id rnd) = Some c →
       if existsb (Nat.eqb n) [8; 13; 18; 23]%nat then c = "-"%char else is_hex c = true).
Proof.
  pose proof (uuid4_version_nibble rnd) as Hver.
  destruct (uuid4_variant_nibble rnd) as (v & Hv & Hvar).
  split; [apply is_uuid_length, generate_job_id_is_uuid |].
  unfold generate_job_id, uuid_str in *.
  revert Hver Hvar. generalize (uuid4_int rnd). intros x Hver Hvar.
  cbn [to_hex].
  change (4 * N.of_nat 19)%N with 76%N. change (4 * N.of_nat 15)%N with 60%N.
  rewrite Hver, Hvar. clear Hver Hvar.
  repeat match goal with
         | |- context [hex_digit (N.land ?a 15)] =>
             generalize (is_hex_hex_digit (N.land a 15)); generalize (hex_digit (N.land a 15));
             intros ? ?
         end.
  split; [reflexivity |]. split.
  - assert (v = 0 ∨ v = 1 ∨ v = 2 ∨ v = 3)%N as [-> | [-> | [-> | ->]]] by lia;
      eexists; (split; [reflexivity | reflexivity]).
  - generalize (is_hex_hex_digit (8 + v)). generalize (hex_digit (8 + v)). intros cv Hcv.
    intros n c.
    do 36 (destruct n as [| n];
           [cbv -[is_hex]; intros [= <-]; first [reflexivity | assumption] |]).
    cbv. intros Hn. discriminate Hn.
Qed.

(** ** Effects of single steps *)

Lemma launches_app (t u : list Event) : launches (t ++ u) = (launches t + launches u)%nat.
Proof. induction t as [| [p | cmd] t IH]; cbn [launches app]; [done | done | by rewrite IH]. Qed.

(** What a submission does, by its result. *)
Lemma submit_effect (rnd : N) (request : ProcessingRequest) (w : World) :
  let out := start_processing rnd request w in
  (∃ resp, out.1 = Ok resp
     ∧ PROCESSING_JOBS out.2 = <[generate_job_id rnd := queued_record]> (PROCESSING_JOBS w)
     ∧ background_tasks out.2 =
         background_tasks w ++
           [job_params_of (generate_job_id rnd)
              (os_path_join INGEST_DIR (generate_job_id rnd)) request]
     ∧ trace out.2 = trace w)
  ∨ (∃ e, out.1 = Raise e
       ∧ PROCESSING_JOBS out.2 = PROCESSING_JOBS w
       ∧ background_tasks out.2 = background_tasks w
       ∧ trace out.2 = trace w).
Proof.
  cbv zeta. rewrite start_processing_unfold.
  pose proof (stage_input_frame (os_path_join INGEST_DIR (generate_job_id rnd)) request w)
    as (Hj & Hb & Ht).
  destruct (stage_input _ request w) as [[[] | e] w1]; world_simpl.
  - left. eexists. by rewrite Hj, Hb, Ht.
  - right. by exists e.
Qed.

(** What a background execution does to registry, schedule and trace. *)
Lemma execute_effect (proc : Subprocess) (params : JobParams) (w : World) :
  let w' := (run_colmap_script proc params w).2 in
  (∃ r, PROCESSING_JOBS w' = <[job_id params := r]> (PROCESSING_JOBS w)
        ∧ (r = completed_record (job_id params) ∨ ∃ text, r = failed_record text))
  ∧ background_tasks w' = background_tasks w
  ∧ (launches (trace w') ≤ S (launches (trace w)))%nat.
Proof.
  cbv zeta. rewrite run_colmap_script_unfold, write_config_unfold.
  assert (∀ config_file w1,
            PROCESSING_JOBS w1 = PROCESSING_JOBS w →
            background_tasks w1 = background_tasks w →
            launches (trace w1) = launches (trace w) →
            let cmd := build_cmd params config_file in
            let w2 := log_event (SubprocessRun cmd) (set_fs (proc cmd (fs w1)).2 w1) in
            let w' := (match (proc cmd (fs w1)).1 with
                       | Raise e =>
                           (Ok tt, set_jobs (<[job_id params := failed_record (str e)]>
                                               (PROCESSING_JOBS w2)) w2)
                       | Ok result =>
                           (Ok tt,
                            set_jobs (<[job_id params :=
                                          if Z.eqb (returncode result) 0
                                          then completed_record (job_id params)
                                          else failed_record (stderr result)]>
                                        (PROCESSING_JOBS w2)) w2)
                       end).2 in
            (∃ r, PROCESSING_JOBS w' = <[job_id params := r]> (PROCESSING_JOBS w)
                  ∧ (r = completed_record (job_id params) ∨ ∃ text, r = failed_record text))
            ∧ background_tasks w' = background_tasks w
            ∧ (launches (trace w') ≤ S (launches (trace w)))%nat) as Hlaunch.
  { intros config_file w1 Hj Hb Ht. cbv zeta.
    destruct (proc (build_cmd params config_file) (fs w1)) as [[result | e] fs2]; world_simpl;
      rewrite Hj, Hb, launches_app, Ht; cbn [launches]; (split_and!; [| done | lia]).
    - eexists. split; [done |]. destruct (Z.eqb (returncode result) 0); eauto.
    - eexists. split; [done |]. eauto. }
  destruct (config params) as [[| m doc] |].
  - by apply Hlaunch.
  - destruct (write_file (fs w) (config_path_of (job_id params)) (JsonDoc (m :: doc)))
      as [fs1 | e].
    + apply Hlaunch; world_simpl; [done | done |].
      rewrite launches_app. cbn [launches]. lia.
    + world_simpl. split_and!; [| done | lia]. eexists. split; [done |]. eauto.
  - by apply Hlaunch.
Qed.

Lemma elem_of_delete_other {A : Type} (l : list A) (i : nat) (p q : A) :
  l !! i = Some p → q ∈ l → q ≠ p → q ∈ delete i l.
Proof.
  intros Hp Hq Hne. apply list_elem_of_lookup in Hq as [j Hj].
  assert (j ≠ i) as Hji by (intros ->; congruence).
  apply list_elem_of_lookup.
  destruct (decide (j < i)) as [Hlt | Hge].
  - exists j. by rewrite list_lookup_delete_lt.
  - exists (j - 1). rewrite list_lookup_delete_ge by lia.
    by replace (S (j - 1)) with j by lia.
Qed.

(** The registry and schedule after one step, case by case. *)
Lemma step_effect (s : Step) (w : World) :
  (PROCESSING_JOBS (step s w) = PROCESSING_JOBS w
   ∧ background_tasks (step s w) = background_tasks w
   ∧ launches (trace (step s w)) = launches (trace w)
   ∧ accepted_ids w [s] = [])
  ∨ (∃ rnd request,
       s = Submit rnd request
       ∧ PROCESSING_JOBS (step s w) =
           <[generate_job_id rnd := queued_record]> (PROCESSING_JOBS w)
       ∧ background_tasks (step s w) =
           background_tasks w ++
             [job_params_of (generate_job_id rnd)
                (os_path_join INGEST_DIR (generate_job_id rnd)) request]
       ∧ launches (trace (step s w)) = launches (trace w)
       ∧ accepted_ids w [s] = [generate_job_id rnd])
  ∨ (∃ i proc p r,
       s = Execute i proc
       ∧ background_tasks w !! i = Some p
       ∧ PROCESSING_JOBS (step s w) = <[job_id p := r]> (PROCESSING_JOBS w)
       ∧ (r = completed_record (job_id p) ∨ ∃ text, r = failed_record text)
       ∧ background_tasks (step s w) = delete i (background_tasks w)
       ∧ (launches (trace (step s w)) ≤ S (launches (trace w)))%nat
       ∧ accepted_ids w [s] = []).
Proof.
  destruct s as [rnd request | id | | rnd files | rnd files c m g r sc | i proc | fs'].
  - cbn [step accepted_ids]. rewrite app_nil_r.
    destruct (submit_effect rnd request w) as [(resp & -> & Hj & Hb & Ht) | (e & -> & Hj & Hb & Ht)].
    + right; left. exists rnd, request. by rewrite Hj, Hb, Ht.
    + left. by rewrite Hj, Hb, Ht.
  - left. cbn [step accepted_ids app]. rewrite get_job_status_unfold.
    by destruct (PROCESSING_JOBS w !! id).
  - by left.
  - left. cbn [step accepted_ids app]. by rewrite upload_files_raises.
  - left. cbn [step accepted_ids app]. by rewrite process_uploaded_files_raises.
  - cbn [step accepted_ids app].
    destruct (background_tasks w !! i) as [p |] eqn:Hp; [| by left].
    right; right.
    destruct (execute_effect proc p (set_background (delete i (background_tasks w)) w))
      as ((r & Hj & Hr) & Hb & Ht).
    exists i, proc, p, r. by split_and!.
  - by left.
Qed.

Lemma accepted_ids_cons (s : Step) (steps : list Step) (w : World) :
  accepted_ids w (s :: steps) = accepted_ids w [s] ++ accepted_ids (step s w) steps.
Proof. cbn [accepted_ids]. by rewrite app_nil_r. Qed.

Lemma accepted_ids_app (pre post : list Step) (w : World) :
  accepted_ids w (pre ++ post) = accepted_ids w pre ++ accepted_ids (run w pre) post.
Proof.
  revert w. induction pre as [| s pre IH]; intros w; [reflexivity |].
  cbn [app]. rewrite (accepted_ids_cons s (pre ++ post)), (accepted_ids_cons s pre), IH.
  by rewrite app_assoc.
Qed.

Lemma pending_registered_step (s : Step) (w : World) :
  pending_registered w → pending_registered (step s w).
Proof.
  intros Hw q.
  destruct (step_effect s w) as [(Hj & Hb & _) | [(rnd & request & _ & Hj & Hb & _)
    | (i & proc & p & r & _ & Hp & Hj & _ & Hb & _)]]; rewrite Hj, Hb; intros Hq.
  - by apply Hw.
  - rewrite lookup_insert. case_decide; [by eexists |].
    apply elem_of_app in Hq as [Hq | Hq]; [by apply Hw |].
    apply list_elem_of_singleton in Hq as ->. done.
  - rewrite lookup_insert. case_decide; [by eexists |].
    apply Hw. by apply list_elem_of_delete_inv in Hq.
Qed.

Lemma pending_registered_run (steps : list Step) (w : World) :
  pending_registered w → pending_registered (run w steps).
Proof.
  revert w. induction steps as [| s steps IH]; intros w Hw; [done |].
  cbn [run fold_left]. apply IH. by apply pending_registered_step.
Qed.

Lemma pending_registered_initial (fs0 : gmap string node) :
  pending_registered (initial_world fs0).
Proof. intros p Hp. by apply elem_of_nil in Hp. Qed.

Lemma queued_pending_step (s : Step) (w : World) :
  queued_pending w → queued_pending (step s w).
Proof.
  intros Hw id r0.
  destruct (step_effect s w) as [(Hj & Hb & _) | [(rnd & request & _ & Hj & Hb & _)
    | (i & proc & p & r & _ & Hp & Hj & Hr & Hb & _)]]; rewrite Hj, Hb.
  - apply Hw.
  - rewrite lookup_insert. case_decide as E.
    + intros _ _. eexists. split; [apply elem_of_app; right; apply list_elem_of_here |].
      by rewrite <- E.
    + intros Hl Hs. destruct (Hw id r0 Hl Hs) as (q & Hq & Hid).
      exists q. split; [apply elem_of_app; by left | done].
  - rewrite lookup_insert. case_decide as E.
    + intros [= <-] Hs. destruct Hr as [-> | [text ->]]; discriminate Hs.
    + intros Hl Hs. destruct (Hw id r0 Hl Hs) as (q & Hq & Hid).
      exists q. split; [| done].
      apply (elem_of_delete_other _ _ p); [done | done | congruence].
Qed.

Lemma queued_pending_run (steps : list Step) (w : World) :
  queued_pending w → queued_pending (run w steps).
Proof.
  revert w. induction steps as [| s steps IH]; intros w Hw; [done |].
  cbn [run fold_left]. apply IH. by apply queued_pending_step.
Qed.

Lemma queued_pending_initial (fs0 : gmap string node) : queued_pending (initial_world fs0).
Proof. intros id r H. cbn in H. by rewrite lookup_empty in H. Qed.

Lemma registry_keys_step (s : Step) (w : World) (id : string) :
  pending_registered w →
  is_Some (PROCESSING_JOBS (step s w) !! id)
  ↔ is_Some (PROCESSING_JOBS w !! id) ∨ id ∈ accepted_ids w [s].
Proof.
  intros Hw.
  destruct (step_effect s w) as [(Hj & _ & _ & Ha) | [(rnd & request & _ & Hj & _ & _ & Ha)
    | (i & proc & p & r & _ & Hp & Hj & _ & _ & _ & Ha)]]; rewrite Hj, Ha.
  - split; [by left | intros [H | H]; [done | by apply elem_of_nil in H]].
  - rewrite lookup_insert. case_decide as E.
    + split; [intros _; right; rewrite E; apply list_elem_of_here | by eexists].
    + split; [by left | intros [H | H]; [done |]].
      apply list_elem_of_singleton in H. congruence.
  - rewrite lookup_insert. case_decide as E.
    + split; [| by eexists]. intros _. left. rewrite <- E.
      apply Hw. by eapply list_elem_of_lookup_2.
    + split; [by left | intros [H | H]; [done | by apply elem_of_nil in H]].
Qed.

Lemma registry_keys_run (steps : list Step) (w : World) (id : string) :
  pending_registered w →
  is_Some (PROCESSING_JOBS (run w steps) !! id)
  ↔ is_Some (PROCESSING_JOBS w !! id) ∨ id ∈ accepted_ids w steps.
Proof.
  revert w. induction steps as [| s steps IH]; intros w Hw.
  - cbn. split; [by left | intros [H | H]; [done | by apply elem_of_nil in H]].
  - change (run w (s :: steps)) with (run (step s w) steps).
    rewrite (accepted_ids_cons s steps), (IH (step s w)), elem_of_app
      by (by apply pending_registered_step).
    rewrite (registry_keys_step s w id Hw). tauto.
Qed.

Lemma step_counts (s : Step) (w : World) :
  (launches (trace (step s w)) + length (background_tasks (step s w))
   ≤ launches (trace w) + length (background_tasks w) + length (accepted_ids w [s]))%nat.
Proof.
  destruct (step_effect s w) as [(_ & Hb & Ht & Ha) | [(rnd & request & _ & _ & Hb & Ht & Ha)
    | (i & proc & p & r & _ & Hp & _ & _ & Hb & Ht & Ha)]]; rewrite Hb, Ha.
  - rewrite Ht. cbn. lia.
  - rewrite Ht, length_app. cbn. lia.
  - pose proof (lookup_lt_Some _ _ _ Hp) as Hlt.
    rewrite length_delete by eauto. cbn. lia.
Qed.

Lemma run_counts (steps : list Step) (w : World) :
  (launches (trace (run w steps)) + length (background_tasks (run w steps))
   ≤ launches (trace w) + length (background_tasks w) + length (accepted_ids w steps))%nat.
Proof.
  revert w. induction steps as [| s steps IH]; intros w; [cbn; lia |].
  change (run w (s :: steps)) with (run (step s w) steps).
  rewrite (accepted_ids_cons s steps), length_app.
  pose proof (IH (step s w)). pose proof (step_counts s w). lia.
Qed.

Lemma accepted_ids_submitted (steps : list Step) (w : World) :
  (length (accepted_ids w steps) ≤ length (submitted_ids steps))%nat.
Proof.
  revert w. induction steps as [| s steps IH]; intros w; [done |].
  rewrite (accepted_ids_cons s steps), (submitted_ids_cons s steps), !length_app.
  specialize (IH (step s w)).
  assert (length (accepted_ids w [s]) ≤ length (submitted_ids [s]))%nat; [| lia].
  destruct s as [rnd request | | | | | |]; cbn [accepted_ids submitted_ids flat_map app];
    try (cbn; lia).
  destruct (start_processing rnd request w).1; cbn; lia.
Qed.

(** ** The registry and the schedule over whole runs *)

(** X3. Over any run from start-up, the number of [subprocess.run] calls
    made so far plus the number of tasks still scheduled never exceeds the
    number of submissions that were accepted, which never exceeds the number
    of submissions: the pipeline is launched at most once per accepted
    submission and never without one. *)
Theorem launches_bounded_by_accepted_submissions
    (fs0 : gmap string node) (steps : list Step) :
  (launches (trace (run (initial_world fs0) steps))
   + length (background_tasks (run (initial_world fs0) steps))
   ≤ length (accepted_ids (initial_world fs0) steps))%nat
  ∧ (length (accepted_ids (initial_world fs0) steps) ≤ length (submitted_ids steps))%nat.
Proof.
  split; [| apply accepted_ids_submitted].
  pose proof (run_counts steps (initial_world fs0)) as H. cbn in H. exact H.
Qed.



(** X5. Listing returns the registry itself and changes nothing. In every
    state reached from start-up its keys are exactly the identifiers of the
    submissions that returned normally, and a key is never removed by
    anything that happens later. *)
Theorem listing_shows_accepted_submissions
    (fs0 : gmap string node) (steps : list Step) (id : string) :
  list_jobs (run (initial_world fs0) steps) =
    (Ok (PROCESSING_JOBS (run (initial_world fs0) steps)), run (initial_world fs0) steps)
  ∧ (is_Some (PROCESSING_JOBS (run (initial_world fs0) steps) !! id)
     ↔ id ∈ accepted_ids (initial_world fs0) steps)
  ∧ (∀ more,
       is_Some (PROCESSING_JOBS (run (initial_world fs0) steps) !! id) →
       is_Some (PROCESSING_JOBS (run (initial_world fs0) (steps ++ more)) !! id)).
Proof.
  split_and!.
  - reflexivity.
  - rewrite (registry_keys_run steps _ id (pending_registered_initial fs0)).
    split; [| by right]. intros [[r H] | H]; [| done].
    cbn in H. by rewrite lookup_empty in H.
  - intros more H. rewrite run_app.
    rewrite (registry_keys_run more _ id); [by left |].
    apply pending_registered_run, pending_registered_initial.
Qed.

(** X6. In every state reached from start-up, a job whose status is
    "queued" has a task in the schedule; so once no task is scheduled, every
    registered job is "completed" or "failed". *)
Theorem queued_job_has_scheduled_task
    (fs0 : gmap string node) (steps : list Step) (id : string) (r : JobRecord) :
  PROCESSING_JOBS (run (initial_world fs0) steps) !! id = Some r →
  (status r = "queued" →
     ∃ p, p ∈ background_tasks (run (initial_world fs0) steps) ∧ job_id p = id)
  ∧ (background_tasks (run (initial_world fs0) steps) = [] →
       is_terminal (status r) = true).
Proof.
  intros Hr.
  pose proof (queued_pending_run steps _ (queued_pending_initial fs0) id r Hr) as Hq.
  split; [exact Hq |].
  intros Hempty.
  destruct (jobs_shape_run steps _ (jobs_shape_initial fs0) id r Hr)
    as [-> | [-> | [text ->]]]; [| done | done].
  destruct (Hq eq_refl) as (p & Hp & _). rewrite Hempty in Hp. by apply elem_of_nil in Hp.
Qed.

Lemma queued_job_has_scheduled_task_witness :
  (status queued_record = "queued" →
     ∃ p, p ∈ background_tasks
                (run (initial_world example_fs)
                   [Submit 1 example_request; Submit 2 plain_request; Execute 0 pipeline_ok])
          ∧ job_id p = generate_job_id 2)
  ∧ (background_tasks
       (run (initial_world example_fs)
          [Submit 1 example_request; Submit 2 plain_request; Execute 0 pipeline_ok]) = [] →
     is_terminal (status queued_record) = true).
Proof.
  apply (queued_job_has_scheduled_task example_fs
           [Submit 1 example_request; Submit 2 plain_request; Execute 0 pipeline_ok]
           (generate_job_id 2) queued_record).
  vm_compute. reflexivity.
Defined.

(** ** Submission, execution and query together *)

(** X7. What a submission returns is what a status query for the returned
    identifier answers right afterwards: the same identifier, status
    "queued", the same message and no output path; the query changes
    nothing. *)
Theorem submit_then_query
    (rnd : N) (request : ProcessingRequest) (w w' : World) (resp : JobStatus) :
  start_processing rnd request w = (Ok resp, w') →
  js_job_id resp = generate_job_id rnd
  ∧ get_job_status (js_job_id resp) w' = (Ok resp, w').
Proof.
  rewrite start_processing_unfold.
  destruct (stage_input _ request w) as [[[] | e] w1]; [| done].
  intros [= <- <-]. split; [done |].
  rewrite get_job_status_unfold. cbn [js_job_id PROCESSING_JOBS].
  by rewrite lookup_insert_eq.
Qed.

Lemma submit_then_query_witness :
  js_job_id (mkJobStatus (generate_job_id 2) "queued"
               (Some "Job is queued for processing") None) = generate_job_id 2
  ∧ get_job_status
      (js_job_id (mkJobStatus (generate_job_id 2) "queued"
                    (Some "Job is queued for processing") None))
      (start_processing 2 plain_request completed_world).2
    = (Ok (mkJobStatus (generate_job_id 2) "queued"
             (Some "Job is queued for processing") None),
       (start_processing 2 plain_request completed_world).2).
Proof.
  apply (submit_then_query 2 plain_request completed_world).
  vm_compute. reflexivity.
Defined.

Lemma write_config_none (params : JobParams) (w : World) :
  config_truthy (config params) = false → write_config params w = (Ok None, w).
Proof.
  intros H. rewrite write_config_unfold.
  by destruct (config params) as [[| m doc] |].
Qed.

(** X8. The parameters of a request reach the pipeline unchanged. When a
    request without config is accepted and its task is the next one run,
    the pipeline is launched exactly once, with the script path, the mode
    flag ([--batch] for mode "batch", [--daemon] for every other mode
    string), the job's staging, workspace and output directories, and the
    request's gpu, render pipeline and scale strings, each as one argument
    of its own; afterwards the schedule is as before the submission and the
    job's status is terminal. *)
Theorem submitted_parameters_reach_pipeline
    (rnd : N) (request : ProcessingRequest) (proc : Subprocess) (w w1 : World) :
  config_truthy (req_config request) = false →
  stage_input (os_path_join INGEST_DIR (generate_job_id rnd)) request w = (Ok tt, w1) →
  trace (run w [Submit rnd request; Execute (length (background_tasks w)) proc]) =
    trace w ++
      [ SubprocessRun
          [ "/workspace/colmap.sh";
            if String.eqb (req_mode request) "batch" then "--batch" else "--daemon";
            "--ingest-dir"; os_path_join INGEST_DIR (generate_job_id rnd);
            "--colmap-workspace"; os_path_join COLMAP_WORKSPACE (generate_job_id rnd);
            "--nerfstudio-output"; os_path_join NERFSTUDIO_OUTPUT (generate_job_id rnd);
            "--gpu"; req_gpu request;
            "--render-pipeline"; req_render_pipeline request;
            "--scale"; req_scale request ] ]
  ∧ background_tasks (run w [Submit rnd request; Execute (length (background_tasks w)) proc])
    = background_tasks w
  ∧ ∃ r,
      PROCESSING_JOBS
        (run w [Submit rnd request; Execute (length (background_tasks w)) proc])
        !! generate_job_id rnd = Some r
      ∧ is_terminal (status r) = true.
Proof.
  intros Hcfg Hstage.
  pose proof (stage_input_frame (os_path_join INGEST_DIR (generate_job_id rnd)) request w)
    as (Hj & Hb & Ht).
  rewrite Hstage in Hj, Hb, Ht. world_simpl.
  cbn [run fold_left]. cbn [step].
  rewrite start_processing_unfold, Hstage. world_simpl.
  rewrite Hb, list_lookup_middle, delete_middle, app_nil_r by done.
  rewrite run_colmap_script_unfold, write_config_none by done.
  unfold build_cmd, base_cmd.
  cbn [mode input_path job_id gpu render_pipeline scale job_params_of].
  rewrite app_nil_r. cbv zeta. world_simpl.
  match goal with |- context [proc ?c ?f] => destruct (proc c f) as [[result | e] fs2] end;
    world_simpl; rewrite Ht, lookup_insert_eq; (split_and!; [done | done |]).
  - eexists. split; [done |]. by destruct (Z.eqb (returncode result) 0).
  - eexists. split; [done |]. done.
Qed.

Lemma submitted_parameters_reach_pipeline_witness :
  trace (run (initial_world example_fs)
           [Submit 1 plain_request;
            Execute (length (background_tasks (initial_world example_fs))) pipeline_ok]) =
    trace (initial_world example_fs) ++
      [ SubprocessRun
          [ "/workspace/colmap.sh";
            if String.eqb (req_mode plain_request) "batch" then "--batch" else "--daemon";
            "--ingest-dir"; os_path_join INGEST_DIR (generate_job_id 1);
            "--colmap-workspace"; os_path_join COLMAP_WORKSPACE (generate_job_id 1);
            "--nerfstudio-output"; os_path_join NERFSTUDIO_OUTPUT (generate_job_id 1);
            "--gpu"; req_gpu plain_request;
            "--render-pipeline"; req_render_pipeline plain_request;
            "--scale"; req_scale plain_request ] ].
Proof.
  apply (submitted_parameters_reach_pipeline 1 plain_request pipeline_ok
           (initial_world example_fs)
           (stage_input (os_path_join INGEST_DIR (generate_job_id 1)) plain_request
              (initial_world example_fs)).2);
    vm_compute; reflexivity.
Defined.

(** ** Where a job's files are *)

Lemma startswith_app_self (p s : string) : startswith p (p +:+ s) = true.
Proof.
  induction p as [| a p IH]; [done |].
  change (startswith (String a p) (String a (p +:+ s)) = true).
  cbn [startswith]. by rewrite Ascii.eqb_refl, IH.
Qed.

Lemma startswith_drop (q t k : string) :
  startswith (q +:+ t) k = true → startswith t (string_drop (String.length q) k) = true.
Proof.
  revert k. induction q as [| a q IH]; intros k H; [done |].
  change (startswith (String a (q +:+ t)) k = true) in H.
  destruct k as [| b k]; [done |]. cbn [startswith] in H.
  apply andb_true_iff in H as [_ H]. cbn [String.length string_drop]. by apply IH.
Qed.

(** The staging directory of a generated identifier: its text, that it does
    not end in a separator, and that it is the last prefix of itself. *)
Lemma staging_dir_facts (rnd : N) :
  let dir := os_path_join INGEST_DIR (generate_job_id rnd) in
  dir = "/workspace/ingest/" +:+ generate_job_id rnd
  ∧ String.eqb dir "" || endswith_slash dir = false
  ∧ dir ∈ path_prefixes dir.
Proof.
  cbv zeta. pose proof (generate_job_id_is_uuid rnd) as Hid.
  destruct (staging_dir_prefixes _ Hid) as [Hdir Hprefixes].
  assert (generate_job_id rnd ≠ "") as Hne by (intros E; by rewrite E in Hid).
  split_and!; [done | |].
  - rewrite Hdir, string_app_nonempty, endswith_slash_app by done.
    by apply no_slash_not_endswith, is_uuid_no_slash.
  - rewrite Hprefixes, <- Hdir. do 2 apply list_elem_of_further. apply list_elem_of_here.
Qed.

(** X9. Every path derived from a generated identifier lies below the
    fixed root it belongs to: the staging directory below the ingest root,
    the workspace directory and the configuration file below the pipeline
    workspace root, the output directory below the dataset root. The
    configuration file lies beside the job's workspace directory, not
    inside it. *)
Theorem job_paths_below_their_roots (rnd : N) :
  path_under (os_path_join INGEST_DIR (generate_job_id rnd)) INGEST_DIR = true
  ∧ path_under (os_path_join COLMAP_WORKSPACE (generate_job_id rnd)) COLMAP_WORKSPACE = true
  ∧ path_under (os_path_join NERFSTUDIO_OUTPUT (generate_job_id rnd)) NERFSTUDIO_OUTPUT = true
  ∧ path_under (config_path_of (generate_job_id rnd)) COLMAP_WORKSPACE = true
  ∧ path_under (config_path_of (generate_job_id rnd))
      (os_path_join COLMAP_WORKSPACE (generate_job_id rnd)) = false.
Proof.
  pose proof (generate_job_id_is_uuid rnd) as Hid.
  pose proof (job_paths_uuid _ Hid) as Hpaths. unfold job_paths in Hpaths.
  pose proof (f_equal (fun l => nth 0 l "") Hpaths) as H1.
  pose proof (f_equal (fun l => nth 1 l "") Hpaths) as H2.
  pose proof (f_equal (fun l => nth 2 l "") Hpaths) as H3.
  pose proof (f_equal (fun l => nth 3 l "") Hpaths) as H4.
  cbn [nth] in H1, H2, H3, H4. rewrite H1, H2, H3, H4.
  unfold path_under.
  change (INGEST_DIR +:+ "/") with "/workspace/ingest/".
  change (COLMAP_WORKSPACE +:+ "/") with "/workspace/colmap_workspace/".
  change (NERFSTUDIO_OUTPUT +:+ "/") with "/workspace/nerfstudio_dataset/".
  rewrite !startswith_app_self. split_and!; try done.
  rewrite string_app_assoc, startswith_app_l.
  destruct (startswith _ _) eqn:E; [| done].
  apply startswith_has_slash in E.
  - by rewrite (config_name_no_slash _ Hid) in E.
  - rewrite has_slash_app. apply orb_true_r.
Qed.

(** ** What a submission does to the filesystem *)

(** [shutil.copy] writes one path. *)
Lemma shutil_copy_writes (fs1 fs2 : gmap string node) (src dst p : string) :
  shutil_copy fs1 src dst = Ok fs2 →
  p ≠ (if os_path_isdir fs1 dst then os_path_join dst (os_path_basename src) else dst) →
  fs2 !! p = fs1 !! p.
Proof.
  unfold shutil_copy, write_file. intros H Hp.
  destruct (fs1 !! src) as [[c |] |]; [| done | done].
  destruct (String.eqb src _); [done |].
  destruct (open_w fs1 _); [| done].
  injection H as <-. by apply lookup_insert_ne.
Qed.

(** [shutil.copytree] writes at the destination, below it, and at the
    directories it creates on the way to it. *)
Lemma shutil_copytree_writes (fs1 fs2 : gmap string node) (src dst p : string) :
  shutil_copytree fs1 src dst = Ok fs2 →
  p ∉ path_prefixes dst → path_under p dst = false →
  fs2 !! p = fs1 !! p.
Proof.
  unfold shutil_copytree. intros H Hp Hunder.
  destruct (fs1 !! src) as [[c |] |]; [done | | done].
  destruct (path_under dst src && _); [done |].
  destruct (os_makedirs fs1 dst) as [fs1' | e] eqn:Hmk; [| done].
  destruct (String.eqb src dst && _); [done |].
  destruct (forallb _ _); [| done].
  injection H as <-.
  rewrite lookup_union_r; [by apply (os_makedirs_other _ _ _ _ Hmk) |].
  apply not_elem_of_list_to_map_1. intros Hin.
  apply list_elem_of_fmap in Hin as ([k n] & -> & Hin).
  apply list_elem_of_In, in_map_iff in Hin as ([k0 n0] & [= <- <-] & Hin).
  apply list_elem_of_In, list_elem_of_filter in Hin as [Hk _].
  cbn [fst snd] in *. unfold path_under in Hk, Hunder.
  apply startswith_drop in Hk.
  by rewrite startswith_app_l, Hk in Hunder.
Qed.

(** The filesystem after a submission, whatever its result. *)
Lemma start_processing_fs (rnd : N) (request : ProcessingRequest) (w : World) :
  fs (start_processing rnd request w).2 =
    fs (stage_input (os_path_join INGEST_DIR (generate_job_id rnd)) request w).2.
Proof.
  rewrite start_processing_unfold.
  by destruct (stage_input _ request w) as [[[] | e] w1].
Qed.

(** X10. A submission, accepted or not, changes the filesystem nowhere
    but at the job's staging directory, below it, and at the directories
    created on the way to it ([/workspace] and the ingest root): the input
    it copies from and the files of other jobs are left as they were. *)
Theorem submission_writes_only_staging_area
    (rnd : N) (request : ProcessingRequest) (w : World) (p : string) :
  p ∉ path_prefixes (os_path_join INGEST_DIR (generate_job_id rnd)) →
  path_under p (os_path_join INGEST_DIR (generate_job_id rnd)) = false →
  fs (start_processing rnd request w).2 !! p = fs w !! p.
Proof.
  intros Hp Hunder.
  destruct (staging_dir_facts rnd) as (_ & Hend & Hin).
  rewrite start_processing_fs, stage_input_unfold.
  destruct (os_makedirs (fs w) _) as [fs1 | e] eqn:Hmk; [| done].
  pose proof (os_makedirs_other _ _ _ _ Hmk Hp) as Hfs1.
  destruct (os_path_isdir fs1 (req_input_path request)).
  - destruct (shutil_copytree fs1 _ _) as [fs2 | e] eqn:Hcopy; [| done].
    cbn [fs set_fs snd]. by rewrite (shutil_copytree_writes _ _ _ _ _ Hcopy Hp Hunder).
  - destruct (shutil_copy fs1 _ _) as [fs2 | e] eqn:Hcopy; [| done].
    cbn [fs set_fs snd]. rewrite (shutil_copy_writes _ _ _ _ p Hcopy); [done |].
    intros ->. destruct (os_path_isdir fs1 _); [| done].
    rewrite os_path_join_relative in Hunder;
      [| apply no_slash_relative, os_path_basename_no_slash | done].
    unfold path_under in Hunder.
    by rewrite <- string_app_assoc, startswith_app_self in Hunder.
Qed.

Lemma submission_writes_only_staging_area_witness :
  fs (start_processing 1 example_request (initial_world example_fs)).2 !! "/data/img.png"
  = fs (initial_world example_fs) !! "/data/img.png".
Proof.
  apply submission_writes_only_staging_area.
  - apply (bool_decide_unpack _). vm_compute. reflexivity.
  - vm_compute. reflexivity.
Defined.

(** X11. A submission that fails after its staging directory could be
    created leaves that directory behind: afterwards it exists, although
    no job is registered or scheduled for the identifier. *)
Theorem failed_submission_leaves_staging_directory
    (rnd : N) (request : ProcessingRequest) (w w' : World) (e : Exception) :
  start_processing rnd request w = (Raise e, w') →
  (∀ p c, p ∈ path_prefixes (os_path_join INGEST_DIR (generate_job_id rnd)) →
     fs w !! p ≠ Some (File c)) →
  os_path_isdir (fs w') (os_path_join INGEST_DIR (generate_job_id rnd)) = true
  ∧ PROCESSING_JOBS w' = PROCESSING_JOBS w
  ∧ background_tasks w' = background_tasks w.
Proof.
  intros Hraise Hfree.
  destruct (start_processing_failure_frame _ _ _ _ _ Hraise) as (Hj & Hb & _).
  split; [| done].
  destruct (staging_dir_facts rnd) as (_ & Hend & Hin).
  destruct (makedirs_from_ok _ _ Hfree) as (fs1 & Hmk & Hdirs & _).
  assert (os_makedirs (fs w) (os_path_join INGEST_DIR (generate_job_id rnd)) = Ok fs1)
    as Hmakedirs.
  { unfold os_makedirs. apply orb_false_iff in Hend as [-> _]. exact Hmk. }
  rewrite start_processing_unfold, stage_input_unfold, Hmakedirs in Hraise.
  assert (fs w' = fs1) as ->.
  { destruct (if os_path_isdir fs1 (req_input_path request) then _ else _) as [fs2 | e2];
      [done |]. by injection Hraise as _ <-. }
  unfold os_path_isdir. by rewrite (Hdirs _ Hin).
Qed.

Lemma failed_submission_leaves_staging_directory_witness :
  os_path_isdir (fs (start_processing 1 example_request (initial_world fresh_fs)).2)
    (os_path_join INGEST_DIR (generate_job_id 1)) = true.
Proof.
  apply (failed_submission_leaves_staging_directory 1 example_request
           (initial_world fresh_fs) _ (FileNotFoundError "/data")).
  - vm_compute. reflexivity.
  - intros p c Hp. apply list_elem_of_In in Hp. vm_compute in Hp.
    destruct Hp as [<- | [<- | [<- | []]]]; intros E; vm_compute in E; discriminate E.
Defined.

